(** * usgs-retrieval: site lookup, granule search and nearest-in-time matching

    A shallow embedding of [retrieval_utils.py] (and of the batch variant of
    [get_param_sites] in [modules/retrieval_utils_appeearsTest.py]).

    - Python [str] is [string] (ASCII text); [int] is [Z]; a [list] is a
      [list]; a dict with a fixed set of keys is a record; a key that the
      code tests for or defaults is an [option] field.
    - A raised exception is the [Raise] outcome of the [Exc] monad; a
      [print] and an HTTP request are events of a trace ([IO]).
    - The [pandas] module is the interface [Pandas]; the remote services
      answering [requests.get] and [requests.post] are the record [Remote].
      The [tqdm] progress bar only draws on the terminal and is left out.
    - The unbounded [while True] of [get_site_granules] takes fuel. *)

From Stdlib Require Import ZArith List String Ascii Bool Lia DecimalString.
Import ListNotations.

Local Open Scope string_scope.
Local Open Scope Z_scope.
Local Open Scope list_scope.

(** ** Exceptions and the two monads *)

Inductive exn : Type :=
| IndexError
| KeyError
| ValueError
| DateParseError.

Inductive Exc (A : Type) : Type :=
| Return (a : A)
| Raise (e : exn).
Arguments Return {A} a.
Arguments Raise {A} e.

Definition bind {A B : Type} (c : Exc A) (k : A -> Exc B) : Exc B :=
  match c with
  | Return a => k a
  | Raise e => Raise e
  end.

Declare Scope exc_scope.
Delimit Scope exc_scope with exc.
Notation "x <- c ;; k" := (bind c (fun x => k))
  (at level 100, c at next level, right associativity) : exc_scope.

(** A Python [for x in xs: body] whose body updates the loop state and may
    raise. *)
Fixpoint for_each {S A : Type} (body : S -> A -> Exc S) (xs : list A) (s : S)
  : Exc S :=
  match xs with
  | [] => Return s
  | x :: rest => bind (body s x) (for_each body rest)
  end.

(** ** Python string operations *)

Module Str.

Definition tab : ascii := Ascii.ascii_of_nat 9.

(** [s.startswith(p)] *)
Fixpoint startswith (p s : string) : bool :=
  match p, s with
  | EmptyString, _ => true
  | String a p', String b s' => Ascii.eqb a b && startswith p' s'
  | String _ _, EmptyString => false
  end.

(** [needle in hay] on two strings: substring containment. *)
Fixpoint str_in (needle hay : string) : bool :=
  startswith needle hay ||
  match hay with
  | EmptyString => false
  | String _ hay' => str_in needle hay'
  end.

Fixpoint rev (s : string) : string :=
  match s with
  | EmptyString => EmptyString
  | String c s' => (rev s' ++ String c EmptyString)%string
  end.

(** [s.endswith(p)] *)
Definition endswith (p s : string) : bool := startswith (rev p) (rev s).

(** Line boundaries of [str.splitlines] within ASCII:
    LF, VT, FF, CR, FS, GS, RS. *)
Definition is_linebreak (c : ascii) : bool :=
  let n := Ascii.nat_of_ascii c in
  ((10 <=? n) && (n <=? 13))%nat || ((28 <=? n) && (n <=? 30))%nat.

(** Whitespace removed by [str.strip] within ASCII. *)
Definition isspace (c : ascii) : bool :=
  let n := Ascii.nat_of_ascii c in
  ((9 <=? n) && (n <=? 13))%nat || ((28 <=? n) && (n <=? 32))%nat.

Definition cons_char (c : ascii) (ls : list string) : list string :=
  match ls with
  | [] => [String c EmptyString]
  | l :: ls' => String c l :: ls'
  end.

(** [s.splitlines()]: CR LF is one boundary; no empty last line. *)
Fixpoint splitlines (s : string) : list string :=
  match s with
  | EmptyString => []
  | String c s' =>
      if is_linebreak c then
        EmptyString ::
        match s' with
        | String c2 s'' =>
            if ((Ascii.nat_of_ascii c =? 13) && (Ascii.nat_of_ascii c2 =? 10))%nat
            then splitlines s'' else splitlines s'
        | EmptyString => []
        end
      else cons_char c (splitlines s')
  end.

Fixpoint lstrip (s : string) : string :=
  match s with
  | EmptyString => EmptyString
  | String c s' => if isspace c then lstrip s' else s
  end.

(** [s.strip()] *)
Definition strip (s : string) : string := rev (lstrip (rev (lstrip s))).

(** Truth value of a string: non-empty. *)
Definition truthy (s : string) : bool :=
  match s with
  | EmptyString => false
  | String _ _ => true
  end.

(** [s.split(sep)] for a one-character separator. *)
Fixpoint split (sep : ascii) (s : string) : list string :=
  match s with
  | EmptyString => [EmptyString]
  | String c s' =>
      if Ascii.eqb c sep then EmptyString :: split sep s'
      else cons_char c (split sep s')
  end.

(** [str(n)] for a non-negative integer. *)
Definition of_nat (n : nat) : string := NilEmpty.string_of_uint (Nat.to_uint n).

End Str.

(** ** Traces: HTTP requests and printed lines *)

(** The form data of the granule search, the dict [cmr_param]. *)
Module CmrParam.
Record t : Type := {
  collection_concept_id : string;
  page_size : Z;
  page_num : Z;
  temporal : string;
  point : string
}.
End CmrParam.

Inductive event : Type :=
| Get (url : string)
| Post (url : string) (data : CmrParam.t)
| Print (line : string).

Definition IO (A : Type) : Type := (list event * Exc A)%type.

Definition io_bind {A B : Type} (c : IO A) (k : A -> IO B) : IO B :=
  match c with
  | (tr, Return a) => let (tr', r) := k a in (tr ++ tr', r)
  | (tr, Raise e) => (tr, Raise e)
  end.

Definition io_ret {A : Type} (a : A) : IO A := ([], Return a).
Definition emit (e : event) : IO unit := ([e], Return tt).
Definition lift {A : Type} (c : Exc A) : IO A := ([], c).

Declare Scope io_scope.
Delimit Scope io_scope with io.
Notation "x <- c ;; k" := (io_bind c (fun x => k))
  (at level 100, c at next level, right associativity) : io_scope.
Notation "c ;;; k" := (io_bind c (fun _ => k))
  (at level 100, right associativity) : io_scope.

Fixpoint printed (tr : list event) : list string :=
  match tr with
  | [] => []
  | Print line :: tr' => line :: printed tr'
  | _ :: tr' => printed tr'
  end.

Fixpoint posts (tr : list event) : list CmrParam.t :=
  match tr with
  | [] => []
  | Post _ data :: tr' => data :: posts tr'
  | _ :: tr' => posts tr'
  end.

Fixpoint gets (tr : list event) : list string :=
  match tr with
  | [] => []
  | Get url :: tr' => url :: gets tr'
  | _ :: tr' => gets tr'
  end.

(** ** The pandas interface

    Timestamps and Timedeltas are integers counting nanoseconds, as pandas
    stores them; their arithmetic is taken without the overflow checks that
    pandas makes at the ends of the 64-bit range. *)

Class Pandas : Type := {
  frame : Type;
  (** [pd.DataFrame(data, columns=headers)] *)
  DataFrame : list (list string) -> list string -> Exc frame;
  (** [pd.DataFrame()] *)
  DataFrame_empty : frame;
  (** [df.empty] *)
  empty : frame -> bool;
  (** [len(df)] *)
  len : frame -> nat;
  (** [df[[c1, ..., cn]]] *)
  getitem_columns : frame -> list string -> Exc frame;
  (** [df[df[c].isin(vs)]] *)
  getitem_isin : frame -> string -> list string -> Exc frame;
  (** [pd.concat(dfs, ignore_index=True)] *)
  concat : list frame -> Exc frame;
  (** [pd.to_datetime(s)] on a string *)
  to_datetime : string -> Exc Z;
  (** [t.strftime('%Y-%m-%dT%H:%M:%SZ')] *)
  strftime : Z -> string
}.

(** [pd.Timedelta.max] *)
Definition Timedelta_max : Z := 9223372036854775807.

(** [pd.Timedelta(minutes=m)] *)
Definition Timedelta_minutes (m : Z) : Z := m * 60 * 1000000000.

(** ** The remote services *)

(** Response of the site service: status and body text. *)
Module SiteResponse.
Record t : Type := { status_code : Z; text : string }.
End SiteResponse.

(** An element of a granule entry's [links]. *)
Module Link.
Record t : Type := { href : string }.
End Link.

(** An element of [feed.entry] of the granule search; [time_start] may be
    absent. *)
Module GranuleEntry.
Record t : Type := { links : list Link.t; time_start : option string }.
End GranuleEntry.

(** An element of [feed.entry] of the collection search. *)
Module CollectionEntry.
Record t : Type := { id : string }.
End CollectionEntry.

(** The time-series JSON: [value.timeSeries[i].values[j].value[k]]. *)
Module IVPoint.
Record t : Type := { value : string; dateTime : string }.
End IVPoint.

Module IVGroup.
Record t : Type := { value : list IVPoint.t }.
End IVGroup.

Module IVSeries.
Record t : Type := {
  unitCode : string;            (* ts['variable']['unit']['unitCode'] *)
  values : list IVGroup.t
}.
End IVSeries.

Module IVBody.
Record t : Type := { timeSeries : option (list IVSeries.t) }.
End IVBody.

Module IVData.
Record t : Type := { value : option IVBody.t }.
End IVData.

Module IVResponse.
Record t : Type := { status_code : Z; json : IVData.t }.
End IVResponse.

(** What the services answer to each request. *)
Record Remote : Type := {
  site_get : string -> SiteResponse.t;
  (** [requests.get(url).json()['feed']['entry']] of the collection search *)
  collections_get : string -> list CollectionEntry.t;
  (** [requests.post(url, data=...).json()['feed']['entry']] of the granule search *)
  granules_post : string -> CmrParam.t -> list GranuleEntry.t;
  iv_get : string -> IVResponse.t
}.

Fixpoint io_for_each {S A : Type} (body : S -> A -> IO S) (xs : list A) (s : S)
  : IO S :=
  match xs with
  | [] => io_ret s
  | x :: rest => io_bind (body s x) (io_for_each body rest)
  end.

(** ** The dicts built by the code *)

(** An element of [granule_arr]: a row of the granule table. *)
Module Granule.
Record t : Type := {
  site_no : string;
  station_nm : string;
  site_lat : string;
  site_lon : string;
  granule_urls : list string;
  datetime : string
}.
End Granule.

(** An element of the list returned by [get_granule_results]. *)
Module Reading.
Record t : Type := {
  result : string;
  result_unit : string;
  result_time : string
}.
End Reading.

(** The dict [closest_result]: a row of the matched table. *)
Module Match.
Record t : Type := {
  site_no : string;
  station_nm : string;
  site_lat : string;
  site_lon : string;
  granule_time : Z;
  granule_urls : list string;
  result : string;
  result_unit : string;
  result_time : string
}.
End Match.

(** A row of the site table, as [get_all_site_granules] reads it. *)
Module Site.
Record t : Type := {
  site_no : string;
  station_nm : string;
  dec_lat_va : string;
  dec_long_va : string
}.
End Site.

(** Sequencing of calls that may run out of fuel. *)
Definition fuel_bind {A B : Type} (c : option (IO A)) (k : A -> option (IO B))
  : option (IO B) :=
  match c with
  | None => None
  | Some (tr, Raise e) => Some (tr, Raise e)
  | Some (tr, Return a) =>
      match k a with
      | None => None
      | Some (tr', r) => Some (tr ++ tr', r)
      end
  end.

(** ** retrieval_utils.py *)

Module retrieval_utils.

Definition site_columns : list string :=
  ["site_no"; "station_nm"; "dec_lat_va"; "dec_long_va"].

(** [[line for line in lines if not line.startswith('#') and line.strip()]] *)
Definition data_lines_of (lines : list string) : list string :=
  filter (fun line => negb (Str.startswith "#" line) && Str.truthy (Str.strip line))
         lines.

Definition site_url (param_codes_str state_code start_date end_date : string)
  : string :=
  ("https://waterservices.usgs.gov/nwis/site/?format=rdb&stateCd=" ++ state_code
   ++ "&parameterCd=" ++ param_codes_str
   ++ "&startDT=" ++ start_date ++ "&endDT=" ++ end_date)%string.

Definition no_sites `{Pandas} : IO frame :=
  (emit (Print "No sites found for param codes") ;;;
   io_ret DataFrame_empty)%io.

Definition get_param_sites `{Pandas} (R : Remote)
    (param_codes_str state_code start_date end_date : string) : IO frame :=
  let url := site_url param_codes_str state_code start_date end_date in
  (emit (Get url) ;;;
   let response := site_get R url in
   if SiteResponse.status_code response =? 200 then
     let lines := Str.splitlines (SiteResponse.text response) in
     let data_lines := data_lines_of lines in
     match data_lines with
     | first :: _ =>
         let headers := Str.split Str.tab first in
         let data_lines := map (Str.split Str.tab) (skipn 2 data_lines) in
         df <- lift (DataFrame data_lines headers) ;;
         if negb (empty df) then
           (emit (Print (Str.of_nat (len df) ++ " sites found for param codes")%string) ;;;
            lift (getitem_columns df site_columns))
         else no_sites
     | [] => no_sites
     end
   else no_sites)%io.

Definition doi : string := "10.5067/EMIT/EMITL2ARFL.001".
Definition cmrurl : string := "https://cmr.earthdata.nasa.gov/search/".
Definition doisearch : string := (cmrurl ++ "collections.json?doi=" ++ doi)%string.
Definition granulesearch : string := (cmrurl ++ "granules.json")%string.
Definition page_size : Z := 2000.

(** [[x['href'] for x in g['links'] if 'https' in x['href'] and '.nc' in
    x['href'] and '.dmrpp' not in x['href']]] *)
Definition granule_urls_of (g : GranuleEntry.t) : list string :=
  map Link.href
      (filter (fun x => Str.str_in "https" (Link.href x)
                        && Str.str_in ".nc" (Link.href x)
                        && negb (Str.str_in ".dmrpp" (Link.href x)))
              (GranuleEntry.links g)).

(** [g.get('time_start', 'N/A')] *)
Definition granule_datetime_of (g : GranuleEntry.t) : string :=
  match GranuleEntry.time_start g with
  | Some t => t
  | None => "N/A"
  end.

Definition granule_record (site_no station_nm site_lat site_lon : string)
    (g : GranuleEntry.t) : Granule.t :=
  {| Granule.site_no := site_no;
     Granule.station_nm := station_nm;
     Granule.site_lat := site_lat;
     Granule.site_lon := site_lon;
     Granule.granule_urls := granule_urls_of g;
     Granule.datetime := granule_datetime_of g |}.

Definition cmr_param_of (concept_id : string) (page_num : Z)
    (temporal_str site_lat site_lon : string) : CmrParam.t :=
  {| CmrParam.collection_concept_id := concept_id;
     CmrParam.page_size := page_size;
     CmrParam.page_num := page_num;
     CmrParam.temporal := temporal_str;
     CmrParam.point := (site_lon ++ "," ++ site_lat)%string |}.

(** The [while True] loop; [None] when the fuel runs out before the loop
    breaks. *)
Fixpoint granule_loop (R : Remote) (fuel : nat)
    (site_no station_nm site_lat site_lon temporal_str concept_id : string)
    (page_num : Z) (granule_arr : list Granule.t)
  : option (IO (list Granule.t)) :=
  match fuel with
  | O => None
  | S fuel' =>
      let cmr_param :=
        cmr_param_of concept_id page_num temporal_str site_lat site_lon in
      let granules := granules_post R granulesearch cmr_param in
      match granules with
      | _ :: _ =>
          let granule_arr :=
            granule_arr
            ++ map (granule_record site_no station_nm site_lat site_lon) granules in
          match granule_loop R fuel' site_no station_nm site_lat site_lon
                             temporal_str concept_id (page_num + 1) granule_arr with
          | Some rest => Some (emit (Post granulesearch cmr_param) ;;; rest)%io
          | None => None
          end
      | [] =>
          Some (emit (Post granulesearch cmr_param) ;;;
                match granule_arr with
                | [] => emit (Print ("No granules found for site " ++ site_no)%string)
                | _ :: _ => io_ret tt
                end ;;;
                io_ret granule_arr)%io
      end
  end.

Definition get_site_granules (R : Remote) (fuel : nat)
    (site_no station_nm site_lat site_lon temporal_str : string)
  : option (IO (list Granule.t)) :=
  match collections_get R doisearch with
  | [] => Some (emit (Get doisearch) ;;; lift (Raise IndexError))%io
  | entry0 :: _ =>
      let concept_id := CollectionEntry.id entry0 in
      match granule_loop R fuel site_no station_nm site_lat site_lon
                         temporal_str concept_id 1 [] with
      | Some rest => Some (emit (Get doisearch) ;;; rest)%io
      | None => None
      end
  end.

(** The entry list answered for page [page_num] of a site's search. *)
Definition page_of (R : Remote) (concept_id temporal_str site_lat site_lon : string)
    (page_num : Z) : list GranuleEntry.t :=
  granules_post R granulesearch
                (cmr_param_of concept_id page_num temporal_str site_lat site_lon).

(** [start, start + 1, ..., start + n - 1] *)
Fixpoint zseq (start : Z) (n : nat) : list Z :=
  match n with
  | O => []
  | S n' => start :: zseq (start + 1) n'
  end.

(** Body of [for i, row in site_list.iterrows()]; the state is
    [all_granules]. *)
Definition site_body (R : Remote) (fuel : nat) (temporal_str : string)
    (all_granules : list Granule.t) (row : Site.t) : option (IO (list Granule.t)) :=
  let site_no := Site.site_no row in
  let station_nm := Site.station_nm row in
  let site_lat := Site.dec_lat_va row in
  let site_lon := Site.dec_long_va row in
  fuel_bind (get_site_granules R fuel site_no station_nm site_lat site_lon temporal_str)
            (fun site_granules => Some (io_ret (all_granules ++ site_granules))).

Fixpoint site_loop (R : Remote) (fuel : nat) (temporal_str : string)
    (rows : list Site.t) (all_granules : list Granule.t)
  : option (IO (list Granule.t)) :=
  match rows with
  | [] => Some (io_ret all_granules)
  | row :: rest =>
      fuel_bind (site_body R fuel temporal_str all_granules row)
                (site_loop R fuel temporal_str rest)
  end.

(** [get_all_site_granules]: the rows of [site_list] in; every call of
    [get_site_granules] gets the fuel [fuel]. *)
Definition get_all_site_granules (R : Remote) (fuel : nat) (site_list : list Site.t)
    (temporal_str : string) : option (IO (list Granule.t)) :=
  site_loop R fuel temporal_str site_list [].

Definition iv_url `{Pandas} (site_no param_cd : string) (granule_time time_window : Z)
  : string :=
  let start_time := strftime (granule_time - Timedelta_minutes time_window) in
  let end_time := strftime (granule_time + Timedelta_minutes time_window) in
  ("https://waterservices.usgs.gov/nwis/iv/?format=json&sites=" ++ site_no
   ++ "&parameterCd=" ++ param_cd
   ++ "&startDT=" ++ start_time ++ "&endDT=" ++ end_time)%string.

(** The dict appended for one [value] of the time series [ts]. *)
Definition reading_of (ts : IVSeries.t) (value : IVPoint.t) : Reading.t :=
  {| Reading.result := IVPoint.value value;
     Reading.result_unit := IVSeries.unitCode ts;
     Reading.result_time := IVPoint.dateTime value |}.

(** Body of [for ts in data['value']['timeSeries']]: [ts['values'][0]] raises
    on an empty [values]. *)
Definition series_body (results : list Reading.t) (ts : IVSeries.t)
  : Exc (list Reading.t) :=
  match IVSeries.values ts with
  | [] => Raise IndexError
  | values0 :: _ => Return (results ++ map (reading_of ts) (IVGroup.value values0))
  end.

Definition get_granule_results `{Pandas} (R : Remote) (site_no param_cd : string)
    (granule_time : Z) (time_window : Z) : Exc (list Reading.t) :=
  let results := [] in
  let url := iv_url site_no param_cd granule_time time_window in
  let response := iv_get R url in
  if IVResponse.status_code response =? 200 then
    let data := IVResponse.json response in
    match IVData.value data with
    | Some data_value =>
        match IVBody.timeSeries data_value with
        | Some timeSeries => for_each series_body timeSeries results
        | None => Return results
        end
    | None => Return results
    end
  else Return results.

(** The default [time_window=30]. *)
Definition default_time_window : Z := 30.

Definition closest_result_of (row : Granule.t) (granule_time : Z) (result : Reading.t)
  : Match.t :=
  {| Match.site_no := Granule.site_no row;
     Match.station_nm := Granule.station_nm row;
     Match.site_lat := Granule.site_lat row;
     Match.site_lon := Granule.site_lon row;
     Match.granule_time := granule_time;
     Match.granule_urls := Granule.granule_urls row;
     Match.result := Reading.result result;
     Match.result_unit := Reading.result_unit result;
     Match.result_time := Reading.result_time result |}.

(** The state of the search for one granule: [closest_result] and
    [closest_time]. *)
Definition closest : Type := (option Match.t * Z)%type.

(** Body of [for result in result_data]. *)
Definition result_body `{Pandas} (row : Granule.t) (granule_time : Z)
    (st : closest) (result : Reading.t) : Exc closest :=
  (result_time <- to_datetime (Reading.result_time result) ;;
   let time_between := Z.abs (result_time - granule_time) in
   if time_between <? snd st
   then Return (Some (closest_result_of row granule_time result), time_between)
   else Return st)%exc.

(** Body of [for param_cd in param_codes]; the state also carries the
    output list [results]. *)
Definition param_body `{Pandas} (R : Remote) (row : Granule.t) (granule_time : Z)
    (st : closest * list Match.t) (param_cd : string)
  : Exc (closest * list Match.t) :=
  (result_data <- get_granule_results R (Granule.site_no row) param_cd granule_time
                                      default_time_window ;;
   cl <- for_each (result_body row granule_time) result_data (fst st) ;;
   match fst cl with
   | Some closest_result => Return (cl, snd st ++ [closest_result])
   | None => Return (cl, snd st)
   end)%exc.

(** Body of [for index, row in df_granules.iterrows()]. *)
Definition row_body `{Pandas} (R : Remote) (param_codes : list string)
    (results : list Match.t) (row : Granule.t) : Exc (list Match.t) :=
  (granule_time <- to_datetime (Granule.datetime row) ;;
   st <- for_each (param_body R row granule_time) param_codes
                  ((None, Timedelta_max), results) ;;
   Return (snd st))%exc.

(** [match_granules]: the rows of [df_granules] in, the list [results] that
    becomes the returned table out. *)
Definition match_granules `{Pandas} (R : Remote) (df_granules : list Granule.t)
    (param_codes : list string) : Exc (list Match.t) :=
  for_each (row_body R param_codes) df_granules [].

End retrieval_utils.

(** ** modules/retrieval_utils_appeearsTest.py: the batch site lookup *)

Module retrieval_utils_appeearsTest.

Definition site_url (param_codes_str state_code : string) : string :=
  ("https://waterservices.usgs.gov/nwis/site/?format=rdb&stateCd=" ++ state_code
   ++ "&parameterCd=" ++ param_codes_str)%string.

(** Body of [for state_code in state_codes]; the state is the list [dfs]. *)
Definition state_body `{Pandas} (R : Remote) (param_codes_str : string)
    (site_types : list string) (dfs : list frame) (state_code : string)
  : IO (list frame) :=
  let url := site_url param_codes_str state_code in
  (emit (Get url) ;;;
   let response := site_get R url in
   if SiteResponse.status_code response =? 200 then
     let lines := Str.splitlines (SiteResponse.text response) in
     let data_lines := retrieval_utils.data_lines_of lines in
     match data_lines with
     | first :: _ =>
         let headers := Str.split Str.tab first in
         let data_lines := map (Str.split Str.tab) (skipn 2 data_lines) in
         df <- lift (DataFrame data_lines headers) ;;
         if negb (empty df) then
           (df <- lift (getitem_isin df "site_tp_cd" site_types) ;;
            sel <- lift (getitem_columns df retrieval_utils.site_columns) ;;
            io_ret (dfs ++ [sel]))
         else io_ret dfs
     | [] => io_ret dfs
     end
   else io_ret dfs)%io.

Definition get_param_sites `{Pandas} (R : Remote) (param_codes_str : string)
    (state_codes site_types : list string) : IO frame :=
  (dfs <- io_for_each (state_body R param_codes_str site_types) state_codes [] ;;
   match dfs with
   | _ :: _ =>
       states_df <- lift (concat dfs) ;;
       emit (Print (Str.of_nat (len states_df))) ;;;
       io_ret states_df
   | [] =>
       emit (Print "No sites found for any states") ;;;
       io_ret DataFrame_empty
   end)%io.

End retrieval_utils_appeearsTest.

(** ** Vocabulary of the statements *)

(** The timestamp of a reading is accepted by [pd.to_datetime]. *)
Definition parses `{Pandas} (r : Reading.t) : Prop :=
  exists t, to_datetime (Reading.result_time r) = Return t.

(** [abs(result_time - granule_time)] of a reading that parses. *)
Definition time_between `{Pandas} (granule_time : Z) (r : Reading.t) : Z :=
  match to_datetime (Reading.result_time r) with
  | Return t => Z.abs (t - granule_time)
  | Raise _ => 0
  end.

(** The readings that [get_granule_results] takes from one time series:
    those of [ts['values'][0]]. *)
Definition first_group_readings (ts : IVSeries.t) : list Reading.t :=
  match IVSeries.values ts with
  | values0 :: _ => map (retrieval_utils.reading_of ts) (IVGroup.value values0)
  | [] => []
  end.

(** The trace of the loop of [get_site_granules] that starts at page [p],
    finds [n] non-empty pages and then an empty one, with [arr] collected. *)
Definition loop_trace (site_no site_lat site_lon temporal_str concept_id : string)
    (p : Z) (n : nat) (arr : list Granule.t) : list event :=
  map (fun q => Post retrieval_utils.granulesearch
                     (retrieval_utils.cmr_param_of concept_id q temporal_str
                                                   site_lat site_lon))
      (retrieval_utils.zseq p (S n))
  ++ match arr with
     | [] => [Print ("No granules found for site " ++ site_no)%string]
     | _ :: _ => []
     end.

(** The answer of the site service for a region cannot be used: another
    status than 200, or no data line. *)
Definition no_data (response : SiteResponse.t) : Prop :=
  SiteResponse.status_code response <> 200
  \/ retrieval_utils.data_lines_of (Str.splitlines (SiteResponse.text response)) = [].

(** Two runs return the same and print the same. *)
Definition same_output {A : Type} (c1 c2 : IO A) : Prop :=
  snd c1 = snd c2 /\ printed (fst c1) = printed (fst c2).

(** A printed line that reports missing sites. *)
Definition is_diagnostic (line : string) : bool :=
  Str.startswith "No sites found" line.

(** Every character of a string passes a test. *)
Fixpoint all_chars (p : ascii -> bool) (s : string) : bool :=
  match s with
  | EmptyString => true
  | String c s' => p c && all_chars p s'
  end.

(** The line feed, and the characters that are no line boundary or no tab. *)
Definition nl : ascii := Ascii.ascii_of_nat 10.
Definition no_break (c : ascii) : bool := negb (Str.is_linebreak c).
Definition no_tab (c : ascii) : bool := negb (Ascii.eqb c Str.tab).

(** A cell of a tab-separated table: no tab and no line boundary in it. *)
Definition cell_ok (s : string) : bool :=
  all_chars (fun c => negb (Ascii.eqb c Str.tab) && negb (Str.is_linebreak c)) s.

(** A line that [get_param_sites] keeps as a data line. *)
Definition is_data_line (line : string) : bool :=
  negb (Str.startswith "#" line) && Str.truthy (Str.strip line).

(** The cells of a table row that survives as a data line. *)
Definition row_ok (cells : list string) : Prop :=
  Forall (fun cell => cell_ok cell = true) cells
  /\ is_data_line (String.concat (String Str.tab EmptyString) cells) = true.

(** A comment line of a body: it starts with [#] and has no line boundary. *)
Definition comment_ok (line : string) : Prop :=
  Str.startswith "#" line = true
  /\ all_chars (fun c => negb (Str.is_linebreak c)) line = true.

(** The value of an outcome under a function. *)
Definition exc_map {A B : Type} (f : A -> B) (c : Exc A) : Exc B :=
  match c with
  | Return a => Return (f a)
  | Raise e => Raise e
  end.

(** The line that [get_site_granules] prints for a site without granules. *)
Definition no_granules_line (site_no : string) : string :=
  ("No granules found for site " ++ site_no)%string.

(** A granule record carries the given site fields. *)
Definition tagged (site_no station_nm site_lat site_lon : string) (rec : Granule.t)
  : Prop :=
  Granule.site_no rec = site_no /\ Granule.station_nm rec = station_nm
  /\ Granule.site_lat rec = site_lat /\ Granule.site_lon rec = site_lon.

(** A row of the matched table comes from a granule of the input table and
    from a reading that one of the parameter codes returned for it. *)
Definition derived `{Pandas} (R : Remote) (df_granules : list Granule.t)
    (param_codes : list string) (m : Match.t) : Prop :=
  exists row gt pc rd r,
    In row df_granules
    /\ to_datetime (Granule.datetime row) = Return gt
    /\ In pc param_codes
    /\ retrieval_utils.get_granule_results R (Granule.site_no row) pc gt
          retrieval_utils.default_time_window = Return rd
    /\ In r rd
    /\ m = retrieval_utils.closest_result_of row gt r.

(** ** A reference instance of the interfaces

    Used to run the functions on concrete inputs.  Frames are a header and
    rows of cells with distinct labels and rows as wide as the header;
    timestamps are the UTC forms [YYYY-MM-DDTHH:MM:SSZ] and
    [YYYY-MM-DDTHH:MM:SS.mmmZ]. *)

Module Ref.

Record ListFrame : Type := { columns : list string; rows : list (list string) }.

Fixpoint index_of (c : string) (cols : list string) : option nat :=
  match cols with
  | [] => None
  | c' :: rest =>
      if String.eqb c c' then Some O else option_map S (index_of c rest)
  end.

Fixpoint indices_of (cs cols : list string) : Exc (list nat) :=
  match cs with
  | [] => Return []
  | c :: rest =>
      match index_of c cols with
      | Some i => bind (indices_of rest cols) (fun ixs => Return (i :: ixs))
      | None => Raise KeyError
      end
  end.

Definition new_frame (data : list (list string)) (headers : list string)
  : Exc ListFrame :=
  if forallb (fun row => (List.length row =? List.length headers)%nat) data
  then Return {| columns := headers; rows := data |}
  else Raise ValueError.

Definition select (df : ListFrame) (cs : list string) : Exc ListFrame :=
  bind (indices_of cs (columns df)) (fun ixs =>
    Return {| columns := cs;
              rows := map (fun row => map (fun i => nth i row "") ixs) (rows df) |}).

Definition isin (df : ListFrame) (c : string) (vs : list string) : Exc ListFrame :=
  match index_of c (columns df) with
  | Some i =>
      Return {| columns := columns df;
                rows := filter (fun row => existsb (String.eqb (nth i row "")) vs)
                               (rows df) |}
  | None => Raise KeyError
  end.

Definition concat_frames (dfs : list ListFrame) : Exc ListFrame :=
  match dfs with
  | [] => Raise ValueError
  | df :: _ => Return {| columns := columns df; rows := flat_map rows dfs |}
  end.

Definition digit (c : ascii) : option Z :=
  let n := Ascii.nat_of_ascii c in
  if ((48 <=? n) && (n <=? 57))%nat then Some (Z.of_nat (n - 48)) else None.

Fixpoint digits (s : string) (acc : Z) : option Z :=
  match s with
  | EmptyString => Some acc
  | String c s' =>
      match digit c with
      | Some d => digits s' (10 * acc + d)
      | None => None
      end
  end.

Definition field (s : string) (start width : nat) : option Z :=
  if (String.length (String.substring start width s) =? width)%nat
  then digits (String.substring start width s) 0 else None.

(** Days since 1970-01-01 of a proleptic Gregorian date. *)
Definition days_from_civil (y m d : Z) : Z :=
  let y' := if m <=? 2 then y - 1 else y in
  let era := y' / 400 in
  let yoe := y' - era * 400 in
  let doy := (153 * (if 2 <? m then m - 3 else m + 9) + 2) / 5 + d - 1 in
  let doe := yoe * 365 + yoe / 4 - yoe / 100 + doy in
  era * 146097 + doe - 719468.

Definition civil_from_days (days : Z) : Z * Z * Z :=
  let z := days + 719468 in
  let era := z / 146097 in
  let doe := z - era * 146097 in
  let yoe := (doe - doe / 1460 + doe / 36524 - doe / 146096) / 365 in
  let doy := doe - (365 * yoe + yoe / 4 - yoe / 100) in
  let mp := (5 * doy + 2) / 153 in
  let d := doy - (153 * mp + 2) / 5 + 1 in
  let m := if mp <? 10 then mp + 3 else mp - 9 in
  let y := yoe + era * 400 in
  ((if m <=? 2 then y + 1 else y), m, d).

Definition parse_iso (s : string) : Exc Z :=
  let seps :=
    (String.substring 4 1 s ++ String.substring 7 1 s ++ String.substring 10 1 s
     ++ String.substring 13 1 s ++ String.substring 16 1 s)%string in
  let tail := String.substring 19 (String.length s - 19) s in
  let tail_ok :=
    String.eqb tail "Z"
    || (String.eqb (String.substring 0 1 tail) "."
        && String.eqb (String.substring 4 1 tail) "Z"
        && (String.length tail =? 5)%nat
        && match field tail 1 3 with Some _ => true | None => false end) in
  match field s 0 4, field s 5 2, field s 8 2, field s 11 2, field s 14 2,
        field s 17 2 with
  | Some y, Some m, Some d, Some hh, Some mm, Some ss =>
      if String.eqb seps "--T::" && tail_ok
         && (1 <=? m) && (m <=? 12) && (1 <=? d) && (d <=? 31)
         && (hh <? 24) && (mm <? 60) && (ss <? 60)
      then
        let millis := match field tail 1 3 with Some v => v | None => 0 end in
        Return ((((days_from_civil y m d * 24 + hh) * 60 + mm) * 60 + ss)
                  * 1000000000 + millis * 1000000)
      else Raise DateParseError
  | _, _, _, _, _, _ => Raise DateParseError
  end.

Definition pad (width : nat) (n : Z) : string :=
  let s := Str.of_nat (Z.to_nat n) in
  (String.concat "" (repeat "0" (width - String.length s)) ++ s)%string.

Definition format_iso (t : Z) : string :=
  let secs := t / 1000000000 in
  let days := secs / 86400 in
  let sod := secs mod 86400 in
  let '(y, m, d) := civil_from_days days in
  (pad 4 y ++ "-" ++ pad 2 m ++ "-" ++ pad 2 d ++ "T"
   ++ pad 2 (sod / 3600) ++ ":" ++ pad 2 (sod / 60 mod 60) ++ ":"
   ++ pad 2 (sod mod 60) ++ "Z")%string.

#[export] Instance pandas : Pandas := {|
  frame := ListFrame;
  DataFrame := new_frame;
  DataFrame_empty := {| columns := []; rows := [] |};
  empty := fun df =>
    match columns df, rows df with
    | _ :: _, _ :: _ => false
    | _, _ => true
    end;
  len := fun df => List.length (rows df);
  getitem_columns := select;
  getitem_isin := isin;
  concat := concat_frames;
  to_datetime := parse_iso;
  strftime := format_iso
|}.

End Ref.

(** ** Concrete services and inputs *)

Module Ex.

Definition newline : string := String (Ascii.ascii_of_nat 10) EmptyString.

(** A tab-separated body: one line per row. *)
Definition rdb (rows : list (list string)) : string :=
  String.concat newline (map (String.concat (String Str.tab EmptyString)) rows).

Definition not_found : SiteResponse.t :=
  {| SiteResponse.status_code := 404; SiteResponse.text := "" |}.

(** Region LA answers three sites, every other region answers 404. *)
Definition la_body : string :=
  rdb [ ["# US Geological Survey"];
        ["agency_cd"; "site_no"; "station_nm"; "site_tp_cd"; "dec_lat_va"; "dec_long_va"];
        ["5s"; "15s"; "50s"; "7s"; "16s"; "16s"];
        ["USGS"; "07374000"; "Mississippi River at Baton Rouge, LA"; "ST";
         "30.44566667"; "-91.1916111"];
        ["USGS"; "07374525"; "Mississippi River at Belle Chasse, LA"; "ST";
         "29.85715084"; "-89.9778498"];
        ["USGS"; "07381600"; "Lower Atchafalaya River at Morgan City, LA"; "ST";
         "29.6926667"; "-91.2118889"] ].

Definition la_sites : Ref.ListFrame :=
  {| Ref.columns := retrieval_utils.site_columns;
     Ref.rows :=
       [ ["07374000"; "Mississippi River at Baton Rouge, LA"; "30.44566667"; "-91.1916111"];
         ["07374525"; "Mississippi River at Belle Chasse, LA"; "29.85715084"; "-89.9778498"];
         ["07381600"; "Lower Atchafalaya River at Morgan City, LA"; "29.6926667";
          "-91.2118889"] ] |}.

Definition entry_full : GranuleEntry.t :=
  {| GranuleEntry.links :=
       [ {| Link.href := "https://data.example/EMIT_L2A_RFL_001.nc" |};
         {| Link.href := "https://data.example/EMIT_L2A_RFL_001.nc.dmrpp" |};
         {| Link.href := "http://mirror.example/https/EMIT_L2A_RFL_001.nc.md5" |};
         {| Link.href := "s3://bucket/EMIT_L2A_RFL_001.nc" |} ];
     GranuleEntry.time_start := Some "2023-08-01T12:00:00.000Z" |}.

Definition entry_bare : GranuleEntry.t :=
  {| GranuleEntry.links := []; GranuleEntry.time_start := None |}.

Definition point (t : string) : IVPoint.t :=
  {| IVPoint.value := "4.2"; IVPoint.dateTime := t |}.

Definition series (groups : list (list string)) : IVSeries.t :=
  {| IVSeries.unitCode := "ft";
     IVSeries.values := map (fun ts => {| IVGroup.value := map point ts |}) groups |}.

Definition iv_ok (tss : list IVSeries.t) : IVResponse.t :=
  {| IVResponse.status_code := 200;
     IVResponse.json :=
       {| IVData.value := Some {| IVBody.timeSeries := Some tss |} |} |}.

Definition iv_not_found : IVResponse.t :=
  {| IVResponse.status_code := 404; IVResponse.json := {| IVData.value := None |} |}.

(** The services: parameter 00060 has a reading 20 minutes before noon,
    00065 one 5 minutes after noon and a later one as far, 00010 a time
    series of two groups, any other parameter is not found; page 1 of the
    granule search has two entries and page 2 none. *)
Definition remote : Remote :=
  {| site_get := fun url =>
       if Str.str_in "stateCd=LA&" url
       then {| SiteResponse.status_code := 200; SiteResponse.text := la_body |}
       else not_found;
     collections_get := fun _ => [ {| CollectionEntry.id := "C2408750690-LPCLOUD" |} ];
     granules_post := fun _ data =>
       if CmrParam.page_num data =? 1 then [entry_full; entry_bare] else [];
     iv_get := fun url =>
       if Str.str_in "parameterCd=00060&" url
       then iv_ok [series [["2023-08-01T11:40:00.000Z"]]]
       else if Str.str_in "parameterCd=00065&" url
       then iv_ok [series [["2023-08-01T12:05:00.000Z"; "2023-08-01T11:55:00.000Z"]]]
       else if Str.str_in "parameterCd=00010&" url
       then iv_ok [series [["2023-08-01T12:10:00.000Z"]; ["2023-08-01T12:01:00.000Z"]]]
       else iv_not_found |}.

(** The same services with an unknown product. *)
Definition remote_no_product : Remote :=
  {| site_get := site_get remote;
     collections_get := fun _ => [];
     granules_post := granules_post remote;
     iv_get := iv_get remote |}.

Definition granule (t : string) : Granule.t :=
  {| Granule.site_no := "07374000";
     Granule.station_nm := "Mississippi River at Baton Rouge, LA";
     Granule.site_lat := "30.44566667";
     Granule.site_lon := "-91.1916111";
     Granule.granule_urls := ["https://data.example/EMIT_L2A_RFL_001.nc"];
     Granule.datetime := t |}.

Definition noon : string := "2023-08-01T12:00:00.000Z".
Definition noon_ns : Z := 1690891200000000000.

Definition matched (t : string) : Match.t :=
  {| Match.site_no := "07374000";
     Match.station_nm := "Mississippi River at Baton Rouge, LA";
     Match.site_lat := "30.44566667";
     Match.site_lon := "-91.1916111";
     Match.granule_time := noon_ns;
     Match.granule_urls := ["https://data.example/EMIT_L2A_RFL_001.nc"];
     Match.result := "4.2";
     Match.result_unit := "ft";
     Match.result_time := t |}.

Definition reading (t : string) : Reading.t :=
  {| Reading.result := "4.2"; Reading.result_unit := "ft"; Reading.result_time := t |}.

(** Services where only the site at [(-91.2, 30.4)] has granules. *)
Definition remote_one_site : Remote :=
  {| site_get := site_get remote;
     collections_get := collections_get remote;
     granules_post := fun _ data =>
       if String.eqb (CmrParam.point data) "-91.2,30.4" && (CmrParam.page_num data =? 1)
       then [entry_full] else [];
     iv_get := iv_get remote |}.

Definition site (site_no lat lon : string) : Site.t :=
  {| Site.site_no := site_no; Site.station_nm := "station " ++ site_no;
     Site.dec_lat_va := lat; Site.dec_long_va := lon |}.

(** Services whose granule search never answers an empty page. *)
Definition remote_endless : Remote :=
  {| site_get := site_get remote;
     collections_get := collections_get remote;
     granules_post := fun _ _ => [entry_bare];
     iv_get := iv_get remote |}.

(** Region TX answers a table without the column [site_tp_cd]. *)
Definition tx_body : string :=
  rdb [ ["agency_cd"; "site_no"; "station_nm"; "dec_lat_va"; "dec_long_va"];
        ["5s"; "15s"; "50s"; "16s"; "16s"];
        ["USGS"; "08041780"; "Neches River at Beaumont, TX"; "30.1566"; "-94.1146"] ].

(** The services of [remote], and besides: parameter 00095 has a time
    series without any group after one with a reading, parameter 00011 a
    reading whose time is no timestamp, and region TX the body [tx_body]. *)
Definition remote_odd : Remote :=
  {| site_get := fun url =>
       if Str.str_in "stateCd=TX&" url
       then {| SiteResponse.status_code := 200; SiteResponse.text := tx_body |}
       else site_get remote url;
     collections_get := collections_get remote;
     granules_post := granules_post remote;
     iv_get := fun url =>
       if Str.str_in "parameterCd=00095&" url
       then iv_ok [series [["2023-08-01T12:02:00.000Z"]]; series []]
       else if Str.str_in "parameterCd=00011&" url
       then iv_ok [series [["yesterday"]]]
       else iv_get remote url |}.

End Ex.

(** * Properties *)

(** ** Strings *)

Section StrFacts.

Lemma startswith_spec (p s : string) :
  Str.startswith p s = true <-> exists t, s = (p ++ t)%string.
Proof.
  revert s; induction p as [|a p IH]; intros s; simpl.
  - split; [intros _; now exists s | reflexivity].
  - destruct s as [|b s].
    + split; [discriminate | intros [t Ht]; discriminate].
    + rewrite andb_true_iff, Ascii.eqb_eq, IH. split.
      * intros [-> [t ->]]. now exists t.
      * intros [t Ht]. injection Ht as -> ->. split; [reflexivity | now exists t].
Qed.

Lemma str_in_spec (needle hay : string) :
  Str.str_in needle hay = true
  <-> exists pre post, hay = (pre ++ needle ++ post)%string.
Proof.
  induction hay as [|c hay IH].
  - simpl. rewrite orb_false_r, startswith_spec. split.
    + intros [t Ht]. now exists EmptyString, t.
    + intros [pre [post Hp]]. destruct pre; [now exists post | discriminate].
  - cbn [Str.str_in]. rewrite orb_true_iff, startswith_spec, IH. split.
    + intros [[t Ht] | [pre [post Hp]]].
      * now exists EmptyString, t.
      * exists (String c pre), post. simpl. now rewrite Hp.
    + intros [pre [post Hp]]. destruct pre as [|c' pre].
      * left. now exists post.
      * right. injection Hp as _ Hp. now exists pre, post.
Qed.

End StrFacts.

(** ** The two monads *)

Lemma for_each_app {S A : Type} (body : S -> A -> Exc S) (xs ys : list A) (s : S) :
  for_each body (xs ++ ys) s = bind (for_each body xs s) (for_each body ys).
Proof.
  revert s; induction xs as [|x xs IH]; intros s; simpl; [reflexivity|].
  destruct (body s x); simpl; [apply IH | reflexivity].
Qed.

Lemma printed_app (tr1 tr2 : list event) :
  printed (tr1 ++ tr2) = printed tr1 ++ printed tr2.
Proof.
  induction tr1 as [|[ | | ] tr1 IH]; simpl; rewrite ?IH; reflexivity.
Qed.

Lemma posts_app (tr1 tr2 : list event) : posts (tr1 ++ tr2) = posts tr1 ++ posts tr2.
Proof.
  induction tr1 as [|[ | | ] tr1 IH]; simpl; rewrite ?IH; reflexivity.
Qed.

Lemma gets_app (tr1 tr2 : list event) : gets (tr1 ++ tr2) = gets tr1 ++ gets tr2.
Proof.
  induction tr1 as [|[ | | ] tr1 IH]; simpl; rewrite ?IH; reflexivity.
Qed.

Lemma list_eq_dec_nil {A : Type} (l : list A) : {l = []} + {l <> []}.
Proof. destruct l; [left; reflexivity | right; discriminate]. Qed.

(** ** Granule Finder *)

Section GranuleFinder.

Import retrieval_utils.

Variable R : Remote.
Variables site_no station_nm site_lat site_lon temporal_str : string.

Lemma granule_loop_run (concept_id : string) (n : nat) :
  forall (fuel : nat) (p : Z) (arr : list Granule.t),
    (n < fuel)%nat ->
    (forall i, (i < n)%nat ->
       page_of R concept_id temporal_str site_lat site_lon (p + Z.of_nat i) <> []) ->
    page_of R concept_id temporal_str site_lat site_lon (p + Z.of_nat n) = [] ->
    let arr' :=
      arr ++ flat_map (fun q => map (granule_record site_no station_nm site_lat
                                                    site_lon)
                        (page_of R concept_id temporal_str site_lat site_lon q))
                      (zseq p n) in
    granule_loop R fuel site_no station_nm site_lat site_lon temporal_str
                 concept_id p arr
    = Some (loop_trace site_no site_lat site_lon temporal_str concept_id p n arr', Return arr').
Proof.
  induction n as [|n IH]; intros fuel p arr Hfuel Hne Hempty arr'.
  - destruct fuel as [|fuel]; [lia|]. simpl.
    change (p + Z.of_nat 0) with (p + 0) in Hempty. rewrite Z.add_0_r in Hempty.
    unfold page_of in Hempty. rewrite Hempty.
    subst arr'. simpl. rewrite app_nil_r.
    unfold loop_trace. simpl. destruct arr; reflexivity.
  - destruct fuel as [|fuel]; [lia|]. simpl.
    pose proof (Hne O ltac:(lia)) as H0. simpl in H0. rewrite Z.add_0_r in H0.
    unfold page_of in H0.
    destruct (granules_post R granulesearch
                (cmr_param_of concept_id p temporal_str site_lat site_lon))
      as [|g gs] eqn:Hpage; [contradiction|].
    rewrite (IH fuel (p + 1) _ ltac:(lia)).
    + subst arr'. unfold loop_trace, page_of. cbn [zseq flat_map map].
      rewrite Hpage. cbn [map]. rewrite <- !app_assoc. reflexivity.
    + intros i Hi. replace (p + 1 + Z.of_nat i) with (p + Z.of_nat (S i)) by lia.
      apply Hne. lia.
    + replace (p + 1 + Z.of_nat n) with (p + Z.of_nat (S n)) by lia. exact Hempty.
Qed.

Lemma granule_loop_diverges (concept_id : string) :
  forall (fuel : nat) (p : Z) (arr : list Granule.t),
    (forall q, p <= q ->
       page_of R concept_id temporal_str site_lat site_lon q <> []) ->
    granule_loop R fuel site_no station_nm site_lat site_lon temporal_str
                 concept_id p arr = None.
Proof.
  induction fuel as [|fuel IH]; intros p arr Hne; [reflexivity|]. simpl.
  pose proof (Hne p ltac:(lia)) as H0. unfold page_of in H0.
  destruct (granules_post R granulesearch
              (cmr_param_of concept_id p temporal_str site_lat site_lon));
    [contradiction|].
  rewrite IH; [reflexivity|]. intros q Hq. apply Hne. lia.
Qed.

Lemma posts_loop_trace (concept_id : string) (p : Z) (n : nat) (arr : list Granule.t) :
  posts (loop_trace site_no site_lat site_lon temporal_str concept_id p n arr)
  = map (fun q => cmr_param_of concept_id q temporal_str site_lat site_lon)
        (zseq p (S n)).
Proof.
  unfold loop_trace. rewrite posts_app.
  replace (posts match arr with
                 | [] => [Print ("No granules found for site " ++ site_no)%string]
                 | _ :: _ => []
                 end) with (@nil CmrParam.t) by (destruct arr; reflexivity).
  rewrite app_nil_r. generalize (zseq p (S n)) as qs.
  induction qs as [|q qs IH]; simpl; [reflexivity | now rewrite IH].
Qed.

Lemma first_empty_page (P : nat -> Prop) (dec : forall i, {P i} + {~ P i}) (m : nat) :
  P m -> exists n, (n <= m)%nat /\ P n /\ forall i, (i < n)%nat -> ~ P i.
Proof.
  intros Hm.
  assert (H : forall k, (exists n, (n < k)%nat /\ P n /\ forall i, (i < n)%nat -> ~ P i)
                        \/ (forall i, (i < k)%nat -> ~ P i)).
  { induction k as [|k [[n [Hn Hrest]] | Hnone]].
    - right. intros i Hi. lia.
    - left. exists n. split; [lia | exact Hrest].
    - destruct (dec k) as [Hk | Hk].
      + left. exists k. repeat split; [lia | exact Hk | exact Hnone].
      + right. intros i Hi. destruct (Nat.eq_dec i k) as [-> | Hik];
          [exact Hk | apply Hnone; lia]. }
  destruct (H (S m)) as [[n [Hn Hrest]] | Hnone].
  - exists n. split; [lia | exact Hrest].
  - exfalso. apply (Hnone m); [lia | exact Hm].
Qed.

Lemma granule_loop_shape (concept_id : string) :
  forall (fuel : nat) (p : Z) (arr : list Granule.t) tr r,
    granule_loop R fuel site_no station_nm site_lat site_lon temporal_str
                 concept_id p arr = Some (tr, r) ->
    gets tr = []
    /\ Forall (fun d => CmrParam.collection_concept_id d = concept_id) (posts tr).
Proof.
  induction fuel as [|fuel IH]; intros p arr tr r Hrun; [discriminate|].
  simpl in Hrun.
  destruct (granules_post R granulesearch
              (cmr_param_of concept_id p temporal_str site_lat site_lon)).
  - destruct arr; simpl in Hrun; injection Hrun as <- <-; simpl;
      (split; [reflexivity | repeat constructor]).
  - match type of Hrun with
    | context [granule_loop R fuel ?a ?b ?c ?d ?e ?f ?g ?h] =>
        destruct (granule_loop R fuel a b c d e f g h) as [[tr' r']|] eqn:Hrest
    end; [|discriminate].
    apply IH in Hrest as [Hg Hp].
    destruct r'; simpl in Hrun; injection Hrun as <- <-; simpl;
      (split; [exact Hg | constructor; [reflexivity | exact Hp]]).
Qed.

Lemma granule_loop_inv (Q : Granule.t -> Prop) (concept_id : string) :
  (forall g, Q (granule_record site_no station_nm site_lat site_lon g)) ->
  forall (fuel : nat) (p : Z) (arr : list Granule.t) tr arr',
    Forall Q arr ->
    granule_loop R fuel site_no station_nm site_lat site_lon temporal_str
                 concept_id p arr = Some (tr, Return arr') ->
    Forall Q arr'.
Proof.
  intros HQ. induction fuel as [|fuel IH]; intros p arr tr arr' Harr Hrun;
    [discriminate|].
  simpl in Hrun.
  destruct (granules_post R granulesearch
              (cmr_param_of concept_id p temporal_str site_lat site_lon))
    as [|g gs].
  - destruct arr; simpl in Hrun; injection Hrun as <- <-; exact Harr.
  - match type of Hrun with
    | context [granule_loop R fuel ?a ?b ?c ?d ?e ?f ?g ?h] =>
        destruct (granule_loop R fuel a b c d e f g h) as [[tr' r']|] eqn:Hrest
    end; [|discriminate].
    destruct r' as [arr''|]; simpl in Hrun; [|discriminate].
    injection Hrun as <- <-. eapply IH; [|exact Hrest].
    apply Forall_app. split; [exact Harr|].
    apply Forall_forall. intros x Hx. apply in_map_iff in Hx as [g' [<- _]].
    apply HQ.
Qed.

Lemma granule_urls_of_spec (g : GranuleEntry.t) (url : string) :
  In url (granule_urls_of g)
  <-> (exists x, In x (GranuleEntry.links g) /\ Link.href x = url)
      /\ Str.str_in "https" url = true
      /\ Str.str_in ".nc" url = true
      /\ Str.str_in ".dmrpp" url = false.
Proof.
  unfold granule_urls_of. rewrite in_map_iff. split.
  - intros [x [<- Hx]]. apply filter_In in Hx as [Hin Hc].
    rewrite !andb_true_iff, negb_true_iff in Hc. destruct Hc as [[H1 H2] H3].
    split; [now exists x | now repeat split].
  - intros [[x [Hin <-]] [H1 [H2 H3]]]. exists x. split; [reflexivity|].
    apply filter_In. split; [exact Hin|]. now rewrite H1, H2, H3.
Qed.

(** C7: with the collection resolved, if some page [m + 1] of the site's
    search is empty, then there is a first empty page [n + 1], and with
    enough fuel [get_site_granules] returns: it has posted exactly the
    requests for pages 1, 2, ..., n + 1 in this order, each with page size
    2000, and returns the records of pages 1..n. *)
Theorem get_site_granules_pagination
    (entry0 : CollectionEntry.t) (others : list CollectionEntry.t) (m : nat) :
  let page := page_of R (CollectionEntry.id entry0) temporal_str site_lat site_lon in
  collections_get R doisearch = entry0 :: others ->
  page (Z.of_nat (S m)) = [] ->
  exists n : nat,
    (n <= m)%nat
    /\ page (Z.of_nat (S n)) = []
    /\ (forall i, (1 <= i <= n)%nat -> page (Z.of_nat i) <> [])
    /\ forall fuel, (n < fuel)%nat ->
       exists tr,
         get_site_granules R fuel site_no station_nm site_lat site_lon temporal_str
         = Some (tr,
                 Return (flat_map
                           (fun q => map (granule_record site_no station_nm site_lat
                                                         site_lon) (page q))
                           (zseq 1 n)))
         /\ posts tr
            = map (fun q => cmr_param_of (CollectionEntry.id entry0) q temporal_str
                                         site_lat site_lon)
                  (zseq 1 (S n))
         /\ map CmrParam.page_num (posts tr) = zseq 1 (S n)
         /\ Forall (fun d => CmrParam.page_size d = 2000) (posts tr).
Proof.
  intros page Hlookup Hm.
  destruct (first_empty_page (fun i => page (Z.of_nat (S i)) = [])
              (fun i => list_eq_dec_nil (page (Z.of_nat (S i)))) m Hm)
    as [n [Hle [Hn Hfirst]]].
  exists n. split; [exact Hle|]. split; [exact Hn|]. split.
  - intros i Hi. destruct i as [|i]; [lia|]. apply Hfirst. lia.
  - intros fuel Hfuel. unfold get_site_granules. rewrite Hlookup.
    rewrite (granule_loop_run (CollectionEntry.id entry0) n fuel 1 [] Hfuel).
    + eexists. split; [reflexivity|]. cbn [app posts].
      rewrite posts_loop_trace. split; [reflexivity|].
      generalize (zseq 1 (S n)) as qs. intros qs. split.
      * rewrite map_map. simpl. apply map_id.
      * apply Forall_forall. intros d Hd. apply in_map_iff in Hd as [q [<- _]].
        reflexivity.
    + intros i Hi. replace (1 + Z.of_nat i) with (Z.of_nat (S i)) by lia.
      apply Hfirst. exact Hi.
    + replace (1 + Z.of_nat n) with (Z.of_nat (S n)) by lia. exact Hn.
Qed.

(** X8: with the product known, when no page from 1 on is empty,
    [get_site_granules] does not return, whatever the fuel: the loop has no
    bound on the page number. *)
Lemma get_site_granules_diverges
    (entry0 : CollectionEntry.t) (others : list CollectionEntry.t) :
  collections_get R doisearch = entry0 :: others ->
  (forall q, 1 <= q ->
     page_of R (CollectionEntry.id entry0) temporal_str site_lat site_lon q <> []) ->
  forall fuel,
    get_site_granules R fuel site_no station_nm site_lat site_lon temporal_str = None.
Proof.
  intros Hlookup Hne fuel. unfold get_site_granules. rewrite Hlookup.
  now rewrite granule_loop_diverges.
Qed.

(** C9: when the collection search answers no entry, [get_site_granules]
    raises [IndexError] right after that request, whatever the fuel; when it
    answers entries, any completed call has made the lookup exactly once and
    every granule request carries the id of the first entry. *)
Theorem get_site_granules_lookup :
  (collections_get R doisearch = [] ->
   forall fuel,
     get_site_granules R fuel site_no station_nm site_lat site_lon temporal_str
     = Some ([Get doisearch], Raise IndexError))
  /\ (forall entry0 others,
        collections_get R doisearch = entry0 :: others ->
        forall fuel tr r,
          get_site_granules R fuel site_no station_nm site_lat site_lon temporal_str
          = Some (tr, r) ->
          gets tr = [doisearch]
          /\ Forall (fun d => CmrParam.collection_concept_id d
                              = CollectionEntry.id entry0) (posts tr)).
Proof.
  split.
  - intros Hlookup fuel. unfold get_site_granules. now rewrite Hlookup.
  - intros entry0 others Hlookup fuel tr r Hrun.
    unfold get_site_granules in Hrun. rewrite Hlookup in Hrun.
    destruct (granule_loop R fuel site_no station_nm site_lat site_lon temporal_str
                           (CollectionEntry.id entry0) 1 [])
      as [[tr' r']|] eqn:Hloop; [|discriminate].
    apply granule_loop_shape in Hloop as [Hg Hp].
    simpl in Hrun. injection Hrun as <- <-. simpl. now rewrite Hg.
Qed.

(** C5 (as the code has it): every URL in the [granule_urls] of a record
    returned by [get_site_granules] contains the text [https], contains the
    text [.nc] and does not contain the text [.dmrpp]. *)
Theorem get_site_granules_urls_filtered
    (fuel : nat) (tr : list event) (arr : list Granule.t)
    (rec : Granule.t) (url : string) :
  get_site_granules R fuel site_no station_nm site_lat site_lon temporal_str
  = Some (tr, Return arr) ->
  In rec arr ->
  In url (Granule.granule_urls rec) ->
  (exists pre post, url = (pre ++ "https" ++ post)%string)
  /\ (exists pre post, url = (pre ++ ".nc" ++ post)%string)
  /\ ~ (exists pre post, url = (pre ++ ".dmrpp" ++ post)%string).
Proof.
  intros Hrun Hrec Hurl.
  unfold get_site_granules in Hrun.
  destruct (collections_get R doisearch) as [|entry0 others]; [discriminate|].
  destruct (granule_loop R fuel site_no station_nm site_lat site_lon temporal_str
                         (CollectionEntry.id entry0) 1 [])
    as [[tr' r']|] eqn:Hloop; [|discriminate].
  destruct r' as [arr'|]; simpl in Hrun; [|discriminate].
  injection Hrun as _ <-.
  pose proof (granule_loop_inv
                (fun rec => forall url, In url (Granule.granule_urls rec) ->
                   Str.str_in "https" url = true /\ Str.str_in ".nc" url = true
                   /\ Str.str_in ".dmrpp" url = false)
                (CollectionEntry.id entry0)) as Hinv.
  eapply Hinv in Hloop; [| | constructor].
  - rewrite Forall_forall in Hloop. destruct (Hloop rec Hrec url Hurl) as [H1 [H2 H3]].
    rewrite <- !str_in_spec. rewrite H3. repeat split; try assumption. discriminate.
  - intros g u Hu. apply granule_urls_of_spec in Hu. tauto.
Qed.

End GranuleFinder.

(** ** Temporal Matcher *)

Section TemporalMatcher.

Import retrieval_utils.

Context `{Pandas}.
Variable R : Remote.

Lemma result_body_step (row : Granule.t) (gt : Z) (st : closest) (r : Reading.t) :
  parses r ->
  result_body row gt st r
  = Return (if time_between gt r <? snd st
            then (Some (closest_result_of row gt r), time_between gt r)
            else st).
Proof.
  intros [t Ht]. unfold result_body, time_between. rewrite Ht. simpl.
  destruct (Z.abs (t - gt) <? snd st); reflexivity.
Qed.

(** The scan of a list of candidates from any current best: the state
    changes only for a strictly smaller distance, and ends at the first
    candidate of least distance. *)
Lemma scan_first_closest (row : Granule.t) (gt : Z) (cands : list Reading.t) :
  Forall parses cands ->
  forall (b : option Match.t) (c : Z),
  exists st',
    for_each (result_body row gt) cands (b, c) = Return st'
    /\ ((st' = (b, c) /\ forall x, In x cands -> c <= time_between gt x)
        \/ exists pre r post,
             cands = pre ++ r :: post
             /\ st' = (Some (closest_result_of row gt r), time_between gt r)
             /\ time_between gt r < c
             /\ (forall x, In x pre -> time_between gt r < time_between gt x)
             /\ (forall x, In x post -> time_between gt r <= time_between gt x)).
Proof.
  induction 1 as [|x xs Hx Hxs IH]; intros b c.
  - exists (b, c). split; [reflexivity|]. left. split; [reflexivity|].
    intros x [].
  - cbn [for_each]. rewrite (result_body_step row gt (b, c) x Hx). cbn [bind snd].
    destruct (time_between gt x <? c) eqn:Hlt.
    + apply Z.ltb_lt in Hlt.
      destruct (IH (Some (closest_result_of row gt x)) (time_between gt x))
        as [st' [Hrun [[-> Hall] | [pre [r [post [-> [-> [Hr [Hpre Hpost]]]]]]]]]];
        (eexists; split; [exact Hrun|]); right.
      * exists [], x, xs. repeat split; [exact Hlt | intros y [] | exact Hall].
      * exists (x :: pre), r, post. repeat split; [lia | | exact Hpost].
        intros y [<- | Hy]; [exact Hr | now apply Hpre].
    + apply Z.ltb_ge in Hlt.
      destruct (IH b c)
        as [st' [Hrun [[-> Hall] | [pre [r [post [-> [-> [Hr [Hpre Hpost]]]]]]]]]];
        (eexists; split; [exact Hrun|]).
      * left. split; [reflexivity|]. intros y [<- | Hy]; [exact Hlt | now apply Hall].
      * right. exists (x :: pre), r, post. repeat split; [exact Hr | | exact Hpost].
        intros y [<- | Hy]; [lia | now apply Hpre].
Qed.

(** The search state of one granule after all parameter codes is the scan
    of all their readings in order. *)
Lemma param_loop_closest (row : Granule.t) (gt : Z) :
  forall (param_codes : list string) (datas : list (list Reading.t)),
    Forall2 (fun pc rd =>
               get_granule_results R (Granule.site_no row) pc gt default_time_window
               = Return rd) param_codes datas ->
    Forall parses (List.concat datas) ->
    forall (cl : closest) (results : list Match.t),
    exists cl' results',
      for_each (param_body R row gt) param_codes (cl, results)
      = Return (cl', results')
      /\ for_each (result_body row gt) (List.concat datas) cl = Return cl'.
Proof.
  induction 1 as [|pc rd pcs rds Hpc Hrest IH]; intros Hparse cl results.
  - exists cl, results. split; reflexivity.
  - cbn [List.concat] in Hparse. apply Forall_app in Hparse as [Hrd Hrds].
    destruct cl as [b c].
    destruct (scan_first_closest row gt rd Hrd b c) as [st' [Hscan _]].
    cbn [for_each]. unfold param_body at 1. rewrite Hpc. cbn [bind fst snd].
    rewrite Hscan. cbn [bind].
    destruct (IH Hrds st' (match fst st' with
                           | Some closest_result => results ++ [closest_result]
                           | None => results
                           end)) as [cl' [results' [Hloop Hscan']]].
    exists cl', results'. split.
    + destruct (fst st'); cbn [bind]; exact Hloop.
    + cbn [List.concat]. rewrite for_each_app, Hscan. exact Hscan'.
Qed.

(** X13: when the requests of a granule return and the readings parse, the
    loop over the parameter codes, entered with a best reading, appends
    exactly one row for every parameter code. *)
Lemma param_loop_row_per_code (row : Granule.t) (gt : Z) :
  forall (param_codes : list string) (datas : list (list Reading.t)),
    Forall2 (fun pc rd =>
               get_granule_results R (Granule.site_no row) pc gt default_time_window
               = Return rd) param_codes datas ->
    Forall parses (List.concat datas) ->
    forall (m : Match.t) (c : Z) (results : list Match.t),
    exists cl' results',
      for_each (param_body R row gt) param_codes ((Some m, c), results)
      = Return (cl', results')
      /\ List.length results' = (List.length results + List.length param_codes)%nat.
Proof.
  induction 1 as [|pc rd pcs rds Hpc Hrest IH]; intros Hparse m c results.
  - exists (Some m, c), results. split; [reflexivity | simpl; lia].
  - cbn [List.concat] in Hparse. apply Forall_app in Hparse as [Hrd Hrds].
    cbn [for_each]. unfold param_body at 1. rewrite Hpc. cbn [bind fst snd].
    destruct (scan_first_closest row gt rd Hrd (Some m) c)
      as [st' [Hscan [[-> _] | [pre [r [post [_ [-> _]]]]]]]];
      rewrite Hscan; cbn [bind fst snd].
    + destruct (IH Hrds m c (results ++ [m])) as [cl' [results' [Hloop Hlen]]].
      exists cl', results'. split; [exact Hloop|].
      rewrite Hlen, length_app. simpl. lia.
    + destruct (IH Hrds (closest_result_of row gt r) (time_between gt r)
                   (results ++ [closest_result_of row gt r]))
        as [cl' [results' [Hloop Hlen]]].
      exists cl', results'. split; [exact Hloop|].
      rewrite Hlen, length_app. simpl. lia.
Qed.

(** C4: scanning the readings of all parameter codes of a granule, in
    order, from any current best [(b, c)]: either no reading is strictly
    closer than [c] and the best is unchanged, or the best becomes the
    first reading of least distance, which is strictly closer than [c],
    strictly closer than every reading before it and at least as close as
    every reading after it. *)
Theorem match_keeps_first_closest (row : Granule.t) (gt : Z)
    (param_codes : list string) (datas : list (list Reading.t))
    (b : option Match.t) (c : Z) (results : list Match.t) :
  Forall2 (fun pc rd =>
             get_granule_results R (Granule.site_no row) pc gt default_time_window
             = Return rd) param_codes datas ->
  Forall parses (List.concat datas) ->
  exists cl' results',
    for_each (param_body R row gt) param_codes ((b, c), results)
    = Return (cl', results')
    /\ ((cl' = (b, c)
         /\ forall x, In x (List.concat datas) -> c <= time_between gt x)
        \/ exists pre r post,
             List.concat datas = pre ++ r :: post
             /\ cl' = (Some (closest_result_of row gt r), time_between gt r)
             /\ time_between gt r < c
             /\ (forall x, In x pre -> time_between gt r < time_between gt x)
             /\ (forall x, In x post -> time_between gt r <= time_between gt x)).
Proof.
  intros Hdata Hparse.
  destruct (param_loop_closest row gt param_codes datas Hdata Hparse (b, c) results)
    as [cl' [results' [Hloop Hscan]]].
  exists cl', results'. split; [exact Hloop|].
  destruct (scan_first_closest row gt (List.concat datas) Hparse b c)
    as [st' [Hscan' Hspec]].
  rewrite Hscan in Hscan'. injection Hscan' as <-. exact Hspec.
Qed.

Lemma param_loop_no_candidates (row : Granule.t) (gt : Z) (c : Z)
    (results : list Match.t) :
  forall param_codes : list string,
    (forall pc, In pc param_codes ->
       get_granule_results R (Granule.site_no row) pc gt default_time_window
       = Return []) ->
    for_each (param_body R row gt) param_codes ((None, c), results)
    = Return ((None, c), results).
Proof.
  induction param_codes as [|pc pcs IH]; intros Hnone; [reflexivity|].
  cbn [for_each]. unfold param_body at 1.
  rewrite (Hnone pc (or_introl eq_refl)). cbn [bind for_each fst snd].
  apply IH. intros pc' Hpc'. apply Hnone. now right.
Qed.

(** C6: a granule whose timestamp parses and for which every parameter
    code yields no reading adds no row: the output is that of the same
    table without this granule, and the granules after it are processed. *)
Theorem match_granules_no_candidates (pre post : list Granule.t) (row : Granule.t)
    (param_codes : list string) (gt : Z) :
  to_datetime (Granule.datetime row) = Return gt ->
  (forall pc, In pc param_codes ->
     get_granule_results R (Granule.site_no row) pc gt default_time_window
     = Return []) ->
  match_granules R (pre ++ row :: post) param_codes
  = match_granules R (pre ++ post) param_codes.
Proof.
  intros Hgt Hnone. unfold match_granules. rewrite !for_each_app.
  destruct (for_each (row_body R param_codes) pre []) as [results|e];
    [|reflexivity].
  cbn [bind for_each]. unfold row_body at 1. rewrite Hgt. cbn [bind].
  rewrite (param_loop_no_candidates row gt Timedelta_max results param_codes Hnone).
  reflexivity.
Qed.

(** C10: a record that [get_site_granules] builds from an entry without
    [time_start] has the datetime [N/A]; when [pd.to_datetime] rejects that
    text, [match_granules] raises at this record: with the record first the
    rejection itself is raised, and wherever the record stands no table is
    returned. *)
Theorem match_granules_sentinel_raises
    (site_no station_nm site_lat site_lon : string) (g : GranuleEntry.t)
    (pre post : list Granule.t) (param_codes : list string) (e : exn) :
  to_datetime "N/A" = Raise e ->
  GranuleEntry.time_start g = None ->
  let row := granule_record site_no station_nm site_lat site_lon g in
  Granule.datetime row = "N/A"
  /\ match_granules R (row :: post) param_codes = Raise e
  /\ exists e', match_granules R (pre ++ row :: post) param_codes = Raise e'.
Proof.
  intros Hna Hts row.
  assert (Hdt : Granule.datetime row = "N/A").
  { unfold row, granule_record, granule_datetime_of. simpl. now rewrite Hts. }
  assert (Hrow : forall results, row_body R param_codes results row = Raise e).
  { intros results. unfold row_body. rewrite Hdt, Hna. reflexivity. }
  split; [exact Hdt|]. split.
  - unfold match_granules. cbn [for_each]. now rewrite Hrow.
  - unfold match_granules. rewrite for_each_app.
    destruct (for_each (row_body R param_codes) pre []) as [results|e0].
    + exists e. cbn [bind for_each]. now rewrite Hrow.
    + now exists e0.
Qed.

Lemma series_loop_first_groups :
  forall (tss : list IVSeries.t) (results : list Reading.t),
    (forall ts, In ts tss -> IVSeries.values ts <> []) ->
    for_each series_body tss results
    = Return (results ++ flat_map first_group_readings tss).
Proof.
  induction tss as [|ts tss IH]; intros results Hne.
  - simpl. now rewrite app_nil_r.
  - cbn [for_each flat_map]. unfold series_body at 1, first_group_readings at 1.
    pose proof (Hne ts (or_introl eq_refl)) as Hts.
    destruct (IVSeries.values ts) as [|values0 others]; [contradiction|].
    cbn [bind]. rewrite IH; [now rewrite app_assoc|].
    intros ts' Hts'. apply Hne. now right.
Qed.

(** A time series without any group makes the call raise. *)
Lemma series_loop_empty_group :
  forall (tss : list IVSeries.t) (results : list Reading.t),
    (exists ts, In ts tss /\ IVSeries.values ts = []) ->
    for_each series_body tss results = Raise IndexError.
Proof.
  induction tss as [|ts tss IH]; intros results [ts0 [Hin Hempty]]; [destruct Hin|].
  cbn [for_each]. unfold series_body at 1.
  destruct (IVSeries.values ts) as [|values0 others] eqn:Hts; [reflexivity|].
  cbn [bind]. apply IH. destruct Hin as [-> | Hin]; [congruence|].
  now exists ts0.
Qed.

(** C3 (as the code has it): for a 200 response whose time series all have
    at least one group, the returned list is, in the order of the response,
    one reading per timestamped value of the first group of each time
    series, and nothing else. *)
Theorem get_granule_results_first_groups (site_no param_cd : string)
    (granule_time time_window : Z) (body : IVBody.t) (tss : list IVSeries.t) :
  let response := iv_get R (iv_url site_no param_cd granule_time time_window) in
  IVResponse.status_code response = 200 ->
  IVData.value (IVResponse.json response) = Some body ->
  IVBody.timeSeries body = Some tss ->
  (forall ts, In ts tss -> IVSeries.values ts <> []) ->
  get_granule_results R site_no param_cd granule_time time_window
  = Return (flat_map first_group_readings tss).
Proof.
  intros response Hstatus Hvalue Hts Hne. unfold get_granule_results.
  fold response. rewrite Hstatus, Hvalue, Hts. cbn [Z.eqb Pos.eqb].
  now rewrite series_loop_first_groups.
Qed.

(** Any other answer yields no reading. *)
Lemma get_granule_results_not_200 (site_no param_cd : string)
    (granule_time time_window : Z) :
  IVResponse.status_code (iv_get R (iv_url site_no param_cd granule_time time_window))
  <> 200 ->
  get_granule_results R site_no param_cd granule_time time_window = Return [].
Proof.
  intros Hstatus. unfold get_granule_results.
  destruct (Z.eqb_spec
              (IVResponse.status_code
                 (iv_get R (iv_url site_no param_cd granule_time time_window))) 200);
    [contradiction | reflexivity].
Qed.

End TemporalMatcher.

(** ** Site Locator *)

Lemma io_for_each_app {S A : Type} (body : S -> A -> IO S) (xs ys : list A) (s : S) :
  io_for_each body (xs ++ ys) s
  = io_bind (io_for_each body xs s) (io_for_each body ys).
Proof.
  revert s; induction xs as [|x xs IH]; intros s; simpl.
  - unfold io_ret, io_bind. now destruct (io_for_each body ys s).
  - destruct (body s x) as [tr [s'|e]]; simpl; [|reflexivity].
    rewrite IH. destruct (io_for_each body xs s') as [tr1 [s1|e1]]; simpl.
    + destruct (io_for_each body ys s1) as [tr2 r2]. now rewrite app_assoc.
    + reflexivity.
Qed.

Lemma same_output_bind {A B : Type} (c1 c2 : IO A) (k : A -> IO B) :
  same_output c1 c2 -> same_output (io_bind c1 k) (io_bind c2 k).
Proof.
  destruct c1 as [tr1 r1], c2 as [tr2 r2]. intros [Hr Hp]. simpl in Hr, Hp.
  subst r2. destruct r1 as [a|e]; simpl.
  - destruct (k a) as [tr' r']. split; simpl; [reflexivity|].
    now rewrite !printed_app, Hp.
  - split; simpl; [reflexivity | exact Hp].
Qed.

Section SiteLocator.

Context `{Pandas}.
Variable R : Remote.

Lemma state_body_no_data (param_codes_str : string) (site_types : list string)
    (dfs : list frame) (state_code : string) :
  no_data (site_get R (retrieval_utils_appeearsTest.site_url param_codes_str state_code)) ->
  retrieval_utils_appeearsTest.state_body R param_codes_str site_types dfs state_code
  = ([Get (retrieval_utils_appeearsTest.site_url param_codes_str state_code)],
     Return dfs).
Proof.
  intros Hno. unfold retrieval_utils_appeearsTest.state_body.
  destruct (Z.eqb_spec
              (SiteResponse.status_code
                 (site_get R (retrieval_utils_appeearsTest.site_url
                                param_codes_str state_code))) 200) as [H200|H200].
  - destruct Hno as [Hno|Hno]; [contradiction|]. rewrite Hno. reflexivity.
  - reflexivity.
Qed.

(** C8 (as the code has it): for a region whose answer has another status
    than 200 or no data line, (1) the one-region lookup prints that no sites
    were found and returns the empty table; (2) the batch lookup returns and
    prints what it does for the batch without that region, so the region
    adds no table, raises nothing and has no message of its own, and the
    other regions are processed; (3) when every region of the batch is such,
    the batch lookup prints its one diagnostic and returns the empty table. *)
Theorem get_param_sites_no_data (param_codes_str : string) :
  (forall state_code start_date end_date,
     no_data (site_get R (retrieval_utils.site_url param_codes_str state_code
                                                   start_date end_date)) ->
     retrieval_utils.get_param_sites R param_codes_str state_code start_date end_date
     = ([Get (retrieval_utils.site_url param_codes_str state_code start_date end_date);
         Print "No sites found for param codes"],
        Return DataFrame_empty))
  /\ (forall pre state_code post site_types,
        no_data (site_get R (retrieval_utils_appeearsTest.site_url
                               param_codes_str state_code)) ->
        same_output
          (retrieval_utils_appeearsTest.get_param_sites
             R param_codes_str (pre ++ state_code :: post) site_types)
          (retrieval_utils_appeearsTest.get_param_sites
             R param_codes_str (pre ++ post) site_types))
  /\ (forall state_codes site_types,
        (forall state_code, In state_code state_codes ->
           no_data (site_get R (retrieval_utils_appeearsTest.site_url
                                  param_codes_str state_code))) ->
        same_output
          (retrieval_utils_appeearsTest.get_param_sites
             R param_codes_str state_codes site_types)
          ([Print "No sites found for any states"], Return DataFrame_empty)).
Proof.
  assert (Hdrop : forall pre state_code post site_types,
            no_data (site_get R (retrieval_utils_appeearsTest.site_url
                                   param_codes_str state_code)) ->
            same_output
              (retrieval_utils_appeearsTest.get_param_sites
                 R param_codes_str (pre ++ state_code :: post) site_types)
              (retrieval_utils_appeearsTest.get_param_sites
                 R param_codes_str (pre ++ post) site_types)).
  { intros pre state_code post site_types Hno.
    unfold retrieval_utils_appeearsTest.get_param_sites.
    apply same_output_bind. rewrite !io_for_each_app.
    destruct (io_for_each
                (retrieval_utils_appeearsTest.state_body R param_codes_str site_types)
                pre []) as [tr [dfs|e]]; simpl; [|split; reflexivity].
    rewrite (state_body_no_data _ _ _ _ Hno). simpl.
    destruct (io_for_each
                (retrieval_utils_appeearsTest.state_body R param_codes_str site_types)
                post dfs) as [tr' r']. simpl.
    split; simpl; [reflexivity|]. now rewrite !printed_app. }
  split; [|split].
  - intros state_code start_date end_date Hno.
    unfold retrieval_utils.get_param_sites.
    destruct (Z.eqb_spec
                (SiteResponse.status_code
                   (site_get R (retrieval_utils.site_url param_codes_str state_code
                                                         start_date end_date))) 200)
      as [H200|H200].
    + destruct Hno as [Hno|Hno]; [contradiction|]. rewrite Hno. reflexivity.
    + reflexivity.
  - exact Hdrop.
  - intros state_codes site_types.
    induction state_codes as [|state_code rest IH]; intros Hall.
    + split; reflexivity.
    + destruct (Hdrop [] state_code rest site_types) as [Hr Hp].
      { apply Hall. now left. }
      destruct IH as [Hr' Hp']. { intros sc Hsc. apply Hall. now right. }
      simpl app in Hr, Hp. split; congruence.
Qed.

End SiteLocator.

(** ** The functions on concrete inputs *)

Section Runs.

Import retrieval_utils.
Existing Instance Ref.pandas.

Example run_splitlines :
  Str.splitlines ("a" ++ String (Ascii.ascii_of_nat 13) (String (Ascii.ascii_of_nat 10) "b")
                  ++ Ex.newline)%string
  = ["a"; "b"]
  /\ Str.strip "  ab c  " = "ab c"
  /\ Str.split Str.tab ("a" ++ String Str.tab "" ++ String Str.tab "b")%string = ["a"; ""; "b"]
  /\ Str.of_nat 0 = "0" /\ Str.of_nat 120 = "120".
Proof. repeat split. Qed.

Example run_str_in :
  Str.str_in ".nc" "https://a/b.nc.dmrpp" = true /\ Str.str_in "" "" = true
  /\ Str.str_in "https" "http://a" = false /\ Str.endswith ".nc" "a.nc" = true.
Proof. repeat split. Qed.

Example run_parse_iso :
  Ref.parse_iso "1970-01-02T00:00:01Z" = Return 86401000000000
  /\ Ref.parse_iso "2023-08-01T12:34:56.250Z" = Return 1690893296250000000
  /\ Ref.parse_iso "N/A" = Raise DateParseError
  /\ Ref.parse_iso "" = Raise DateParseError
  /\ Ref.format_iso 1690893296250000000 = "2023-08-01T12:34:56Z"
  /\ Ref.format_iso (1690893296250000000 - Timedelta_minutes 30) = "2023-08-01T12:04:56Z".
Proof. repeat split. Qed.

Example run_get_granule_results :
  get_granule_results Ex.remote "07374000" "00065" Ex.noon_ns 30
  = Return [Ex.reading "2023-08-01T12:05:00.000Z"; Ex.reading "2023-08-01T11:55:00.000Z"].
Proof. vm_compute. reflexivity. Qed.

Example run_match_one_code :
  match_granules Ex.remote [Ex.granule Ex.noon] ["00065"]
  = Return [Ex.matched "2023-08-01T12:05:00.000Z"].
Proof. vm_compute. reflexivity. Qed.

Example run_get_site_granules :
  get_site_granules Ex.remote 2 "07374000" "Baton Rouge" "30.4" "-91.2" "2023"
  = Some ([Get doisearch;
           Post granulesearch (cmr_param_of "C2408750690-LPCLOUD" 1 "2023" "30.4" "-91.2");
           Post granulesearch (cmr_param_of "C2408750690-LPCLOUD" 2 "2023" "30.4" "-91.2")],
          Return [granule_record "07374000" "Baton Rouge" "30.4" "-91.2" Ex.entry_full;
                  granule_record "07374000" "Baton Rouge" "30.4" "-91.2" Ex.entry_bare]).
Proof. vm_compute. reflexivity. Qed.

Example run_get_param_sites :
  get_param_sites Ex.remote "00060" "LA" "2023-01-01" "2023-12-31"
  = ([Get (site_url "00060" "LA" "2023-01-01" "2023-12-31");
      Print "3 sites found for param codes"], Return Ex.la_sites).
Proof. vm_compute. reflexivity. Qed.

End Runs.


(** ** The statements at concrete inputs *)

Section Witnesses.

Import retrieval_utils.
Existing Instance Ref.pandas.

(** C1: one granule and the parameter codes 00060, which has one reading in
    the window, and 00090, which has none: the granule has one candidate
    reading, and [match_granules] returns two rows for it, one per parameter
    code, both holding that reading. *)
Theorem match_granules_row_per_code :
  get_granule_results Ex.remote "07374000" "00060" Ex.noon_ns default_time_window
  = Return [Ex.reading "2023-08-01T11:40:00.000Z"]
  /\ get_granule_results Ex.remote "07374000" "00090" Ex.noon_ns default_time_window
     = Return []
  /\ match_granules Ex.remote [Ex.granule Ex.noon] ["00060"; "00090"]
     = Return [Ex.matched "2023-08-01T11:40:00.000Z";
               Ex.matched "2023-08-01T11:40:00.000Z"].
Proof. repeat split; vm_compute; reflexivity. Qed.

(** C2: one granule and the parameter codes 00060, whose reading is 20
    minutes from the granule, and 00065, which has a reading 5 minutes from
    it: the first row that [match_granules] returns for the granule holds the
    reading at 20 minutes, farther than a candidate of the second code. *)
Theorem match_granules_emits_farther_row :
  match_granules Ex.remote [Ex.granule Ex.noon] ["00060"; "00065"]
  = Return [Ex.matched "2023-08-01T11:40:00.000Z";
            Ex.matched "2023-08-01T12:05:00.000Z"]
  /\ In (Ex.reading "2023-08-01T12:05:00.000Z")
        match get_granule_results Ex.remote "07374000" "00065" Ex.noon_ns
                                  default_time_window with
        | Return rs => rs
        | Raise _ => []
        end
  /\ time_between Ex.noon_ns (Ex.reading "2023-08-01T11:40:00.000Z")
     = Timedelta_minutes 20
  /\ time_between Ex.noon_ns (Ex.reading "2023-08-01T12:05:00.000Z")
     = Timedelta_minutes 5.
Proof.
  split; [vm_compute; reflexivity|]. split; [vm_compute; left; reflexivity|].
  split; vm_compute; reflexivity.
Qed.

(** C3, as stated, fails: the time series answered for parameter 00010 has
    two groups, and the value of the second group is not in the returned
    list. *)
Lemma get_granule_results_skips_groups :
  ~ (forall (R : Remote) (site_no param_cd : string) (granule_time time_window : Z)
            (body : IVBody.t) (tss : list IVSeries.t) (rs : list Reading.t),
       let response := iv_get R (iv_url site_no param_cd granule_time time_window) in
       IVResponse.status_code response = 200 ->
       IVData.value (IVResponse.json response) = Some body ->
       IVBody.timeSeries body = Some tss ->
       get_granule_results R site_no param_cd granule_time time_window = Return rs ->
       forall ts group value,
         In ts tss -> In group (IVSeries.values ts) -> In value (IVGroup.value group) ->
         In (reading_of ts value) rs).
Proof.
  intros Hclaim.
  pose (ts := Ex.series [["2023-08-01T12:10:00.000Z"]; ["2023-08-01T12:01:00.000Z"]]).
  assert (Hin : In (reading_of ts (Ex.point "2023-08-01T12:01:00.000Z"))
                   [Ex.reading "2023-08-01T12:10:00.000Z"]).
  { apply (Hclaim Ex.remote "07374000" "00010" Ex.noon_ns 30
                  {| IVBody.timeSeries := Some [ts] |} [ts]) with
      (group := {| IVGroup.value := [Ex.point "2023-08-01T12:01:00.000Z"] |}).
    - vm_compute. reflexivity.
    - vm_compute. reflexivity.
    - reflexivity.
    - vm_compute. reflexivity.
    - now left.
    - right. now left.
    - now left. }
  destruct Hin as [Heq | []]. discriminate Heq.
Qed.

(** The answer for parameter 00010: only its first group is read. *)
Lemma get_granule_results_first_groups_witness :
  get_granule_results Ex.remote "07374000" "00010" Ex.noon_ns 30
  = Return (flat_map first_group_readings
              [Ex.series [["2023-08-01T12:10:00.000Z"]; ["2023-08-01T12:01:00.000Z"]]]).
Proof.
  apply (get_granule_results_first_groups (H := Ref.pandas) Ex.remote
           "07374000" "00010" Ex.noon_ns 30
           {| IVBody.timeSeries :=
                Some [Ex.series [["2023-08-01T12:10:00.000Z"];
                                 ["2023-08-01T12:01:00.000Z"]]] |}).
  - vm_compute. reflexivity.
  - vm_compute. reflexivity.
  - reflexivity.
  - intros ts [<- | []]. discriminate.
Defined.

(** The search of the granule at noon over the codes 00060 and 00065. *)
Lemma match_keeps_first_closest_witness :
  exists cl' results',
    for_each (param_body Ex.remote (Ex.granule Ex.noon) Ex.noon_ns)
             ["00060"; "00065"] ((None, Timedelta_max), [])
    = Return (cl', results')
    /\ ((cl' = (None, Timedelta_max)
         /\ forall x,
              In x (List.concat [[Ex.reading "2023-08-01T11:40:00.000Z"];
                                 [Ex.reading "2023-08-01T12:05:00.000Z";
                                  Ex.reading "2023-08-01T11:55:00.000Z"]]) ->
              Timedelta_max <= time_between Ex.noon_ns x)
        \/ exists pre r post,
             List.concat [[Ex.reading "2023-08-01T11:40:00.000Z"];
                          [Ex.reading "2023-08-01T12:05:00.000Z";
                           Ex.reading "2023-08-01T11:55:00.000Z"]]
             = pre ++ r :: post
             /\ cl' = (Some (closest_result_of (Ex.granule Ex.noon) Ex.noon_ns r),
                       time_between Ex.noon_ns r)
             /\ time_between Ex.noon_ns r < Timedelta_max
             /\ (forall x, In x pre ->
                   time_between Ex.noon_ns r < time_between Ex.noon_ns x)
             /\ (forall x, In x post ->
                   time_between Ex.noon_ns r <= time_between Ex.noon_ns x)).
Proof.
  apply (match_keeps_first_closest (H := Ref.pandas) Ex.remote (Ex.granule Ex.noon)
           Ex.noon_ns ["00060"; "00065"]
           [[Ex.reading "2023-08-01T11:40:00.000Z"];
            [Ex.reading "2023-08-01T12:05:00.000Z";
             Ex.reading "2023-08-01T11:55:00.000Z"]] None Timedelta_max []).
  - constructor; [vm_compute; reflexivity|].
    constructor; [vm_compute; reflexivity|]. constructor.
  - repeat (constructor; [eexists; vm_compute; reflexivity|]). constructor.
Defined.

(** With the tie between 12:05 and 11:55 the reading met first is kept. *)
Example run_match_tie :
  for_each (param_body Ex.remote (Ex.granule Ex.noon) Ex.noon_ns)
           ["00060"; "00065"] ((None, Timedelta_max), [])
  = Return ((Some (Ex.matched "2023-08-01T12:05:00.000Z"), Timedelta_minutes 5),
            [Ex.matched "2023-08-01T11:40:00.000Z";
             Ex.matched "2023-08-01T12:05:00.000Z"]).
Proof. vm_compute. reflexivity. Qed.

(** A granule without readings between two others. *)
Lemma match_granules_no_candidates_witness :
  match_granules Ex.remote
    ([Ex.granule Ex.noon] ++ Ex.granule "2023-08-01T13:00:00.000Z" :: [Ex.granule Ex.noon])
    ["00090"; "72019"]
  = match_granules Ex.remote ([Ex.granule Ex.noon] ++ [Ex.granule Ex.noon])
                   ["00090"; "72019"].
Proof.
  apply (match_granules_no_candidates (H := Ref.pandas) Ex.remote
           [Ex.granule Ex.noon] [Ex.granule Ex.noon]
           (Ex.granule "2023-08-01T13:00:00.000Z") ["00090"; "72019"]
           1690894800000000000).
  - vm_compute. reflexivity.
  - intros pc [<- | [<- | []]]; vm_compute; reflexivity.
Defined.

(** The record of an entry without [time_start], with the reference parser. *)
Lemma match_granules_sentinel_raises_witness :
  Granule.datetime (granule_record "07374000" "Baton Rouge" "30.4" "-91.2" Ex.entry_bare)
  = "N/A"
  /\ match_granules Ex.remote
       [granule_record "07374000" "Baton Rouge" "30.4" "-91.2" Ex.entry_bare]
       ["00065"]
     = Raise DateParseError
  /\ exists e',
       match_granules Ex.remote
         ([Ex.granule Ex.noon]
          ++ [granule_record "07374000" "Baton Rouge" "30.4" "-91.2" Ex.entry_bare])
         ["00065"]
       = Raise e'.
Proof.
  apply (match_granules_sentinel_raises (H := Ref.pandas) Ex.remote
           "07374000" "Baton Rouge" "30.4" "-91.2" Ex.entry_bare
           [Ex.granule Ex.noon] [] ["00065"] DateParseError).
  - vm_compute. reflexivity.
  - reflexivity.
Defined.

(** C5, as stated, fails: a link that only contains [https] and [.nc]
    somewhere passes the filter, though it is fetched over plain http and
    ends in [.md5]. *)
Lemma get_site_granules_keeps_insecure_url :
  ~ (forall (R : Remote) (fuel : nat)
            (site_no station_nm site_lat site_lon temporal_str : string)
            (tr : list event) (arr : list Granule.t) (rec : Granule.t) (url : string),
       get_site_granules R fuel site_no station_nm site_lat site_lon temporal_str
       = Some (tr, Return arr) ->
       In rec arr ->
       In url (Granule.granule_urls rec) ->
       Str.startswith "https://" url = true
       /\ Str.endswith ".nc" url = true
       /\ Str.str_in ".dmrpp" url = false).
Proof.
  intros Hclaim.
  destruct (get_site_granules Ex.remote 2%nat "07374000" "Baton Rouge" "30.4" "-91.2" "2023")
    as [[tr [arr|e]]|] eqn:Hrun.
  - assert (Harr : arr = [granule_record "07374000" "Baton Rouge" "30.4" "-91.2" Ex.entry_full;
                          granule_record "07374000" "Baton Rouge" "30.4" "-91.2" Ex.entry_bare]).
    { vm_compute in Hrun. injection Hrun as _ <-. reflexivity. }
    destruct (Hclaim _ _ _ _ _ _ _ _ _
                (granule_record "07374000" "Baton Rouge" "30.4" "-91.2" Ex.entry_full)
                "http://mirror.example/https/EMIT_L2A_RFL_001.nc.md5" Hrun)
      as [Hsecure _].
    + rewrite Harr. now left.
    + vm_compute. right. now left.
    + vm_compute in Hsecure. discriminate Hsecure.
  - vm_compute in Hrun. discriminate Hrun.
  - vm_compute in Hrun. discriminate Hrun.
Qed.

(** The plain-http link kept for the first entry of page 1. *)
Lemma get_site_granules_urls_filtered_witness :
  (exists pre post,
     "http://mirror.example/https/EMIT_L2A_RFL_001.nc.md5" = (pre ++ "https" ++ post)%string)
  /\ (exists pre post,
        "http://mirror.example/https/EMIT_L2A_RFL_001.nc.md5" = (pre ++ ".nc" ++ post)%string)
  /\ ~ (exists pre post,
          "http://mirror.example/https/EMIT_L2A_RFL_001.nc.md5"
          = (pre ++ ".dmrpp" ++ post)%string).
Proof.
  apply (get_site_granules_urls_filtered Ex.remote
           "07374000" "Baton Rouge" "30.4" "-91.2" "2023" 2%nat
           [Get doisearch;
            Post granulesearch (cmr_param_of "C2408750690-LPCLOUD" 1 "2023" "30.4" "-91.2");
            Post granulesearch (cmr_param_of "C2408750690-LPCLOUD" 2 "2023" "30.4" "-91.2")]
           [granule_record "07374000" "Baton Rouge" "30.4" "-91.2" Ex.entry_full;
            granule_record "07374000" "Baton Rouge" "30.4" "-91.2" Ex.entry_bare]
           (granule_record "07374000" "Baton Rouge" "30.4" "-91.2" Ex.entry_full)).
  - vm_compute. reflexivity.
  - left. reflexivity.
  - vm_compute. right. left. reflexivity.
Defined.

(** One non-empty page, then an empty one. *)
Lemma get_site_granules_pagination_witness :
  exists n : nat,
    (n <= 1)%nat
    /\ forall fuel, (n < fuel)%nat ->
       exists tr,
         get_site_granules Ex.remote fuel "07374000" "Baton Rouge" "30.4" "-91.2" "2023"
         = Some (tr,
                 Return (flat_map
                           (fun q => map (granule_record "07374000" "Baton Rouge"
                                                         "30.4" "-91.2")
                                         (page_of Ex.remote "C2408750690-LPCLOUD" "2023"
                                                  "30.4" "-91.2" q))
                           (zseq 1 n)))
         /\ map CmrParam.page_num (posts tr) = zseq 1 (S n).
Proof.
  destruct (get_site_granules_pagination Ex.remote
              "07374000" "Baton Rouge" "30.4" "-91.2" "2023"
              {| CollectionEntry.id := "C2408750690-LPCLOUD" |} [] 1)
    as [n [Hle [_ [_ Hrun]]]].
  - reflexivity.
  - reflexivity.
  - exists n. split; [exact Hle|]. intros fuel Hfuel.
    destruct (Hrun fuel Hfuel) as [tr [Hres [_ [Hpages _]]]].
    exists tr. split; [exact Hres | exact Hpages].
Defined.

(** An unknown product, and a known one. *)
Lemma get_site_granules_lookup_witness :
  get_site_granules Ex.remote_no_product 0%nat "07374000" "Baton Rouge" "30.4" "-91.2" "2023"
  = Some ([Get doisearch], Raise IndexError)
  /\ gets [Get doisearch;
           Post granulesearch (cmr_param_of "C2408750690-LPCLOUD" 1 "2023" "30.4" "-91.2");
           Post granulesearch (cmr_param_of "C2408750690-LPCLOUD" 2 "2023" "30.4" "-91.2")]
     = [doisearch].
Proof.
  split.
  - apply (proj1 (get_site_granules_lookup Ex.remote_no_product
                    "07374000" "Baton Rouge" "30.4" "-91.2" "2023")).
    reflexivity.
  - apply (proj2 (get_site_granules_lookup Ex.remote
                    "07374000" "Baton Rouge" "30.4" "-91.2" "2023")
             {| CollectionEntry.id := "C2408750690-LPCLOUD" |} [] eq_refl 2%nat _
             (Return [granule_record "07374000" "Baton Rouge" "30.4" "-91.2" Ex.entry_full;
                      granule_record "07374000" "Baton Rouge" "30.4" "-91.2" Ex.entry_bare])).
    vm_compute. reflexivity.
Defined.

Example run_get_param_sites_batch :
  retrieval_utils_appeearsTest.get_param_sites Ex.remote "00060" ["LA"; "MS"] ["ST"]
  = ([Get (retrieval_utils_appeearsTest.site_url "00060" "LA");
      Get (retrieval_utils_appeearsTest.site_url "00060" "MS");
      Print "3"], Return Ex.la_sites).
Proof. vm_compute. reflexivity. Qed.

(** C8, as stated, fails: of the regions LA and MS the second answers 404;
    the batch lookup returns the three sites of LA and prints only their
    number, no diagnostic for MS. *)
Lemma get_param_sites_batch_prints_no_diagnostic :
  ~ (forall (R : Remote) (param_codes_str : string)
            (state_codes site_types : list string) (state_code : string),
       In state_code state_codes ->
       no_data (site_get R (retrieval_utils_appeearsTest.site_url
                              param_codes_str state_code)) ->
       existsb is_diagnostic
               (printed (fst (retrieval_utils_appeearsTest.get_param_sites
                                R param_codes_str state_codes site_types)))
       = true).
Proof.
  intros Hclaim.
  specialize (Hclaim Ex.remote "00060" ["LA"; "MS"] ["ST"] "MS").
  rewrite run_get_param_sites_batch in Hclaim.
  assert (Hfalse : false = true); [|discriminate Hfalse].
  apply Hclaim.
  - right. now left.
  - left. vm_compute. discriminate.
Qed.

(** Region MS answers 404. *)
Lemma get_param_sites_no_data_witness :
  retrieval_utils.get_param_sites Ex.remote "00060" "MS" "2023-01-01" "2023-12-31"
  = ([Get (retrieval_utils.site_url "00060" "MS" "2023-01-01" "2023-12-31");
      Print "No sites found for param codes"],
     Return DataFrame_empty)
  /\ same_output
       (retrieval_utils_appeearsTest.get_param_sites
          Ex.remote "00060" (["LA"] ++ "MS" :: ["LA"]) ["ST"])
       (retrieval_utils_appeearsTest.get_param_sites
          Ex.remote "00060" (["LA"] ++ ["LA"]) ["ST"])
  /\ same_output
       (retrieval_utils_appeearsTest.get_param_sites Ex.remote "00060" ["MS"; "TX"] ["ST"])
       ([Print "No sites found for any states"], Return DataFrame_empty).
Proof.
  destruct (get_param_sites_no_data (H := Ref.pandas) Ex.remote "00060")
    as [Hone [Hdrop Hall]].
  split; [|split].
  - apply Hone. left. vm_compute. discriminate.
  - apply Hdrop. left. vm_compute. discriminate.
  - apply Hall. intros sc [<- | [<- | []]]; left; vm_compute; discriminate.
Defined.

End Witnesses.

(** ** Granule Finder: every completed call, and the loop over sites *)

Section GranuleFinderRuns.

Import retrieval_utils.

Variable R : Remote.

Lemma granule_loop_outcome
    (site_no station_nm site_lat site_lon temporal_str concept_id : string) :
  forall (fuel : nat) (p : Z) (arr : list Granule.t) tr r,
    granule_loop R fuel site_no station_nm site_lat site_lon temporal_str
                 concept_id p arr = Some (tr, r) ->
    exists more,
      r = Return (arr ++ more)
      /\ gets tr = []
      /\ printed tr = match arr ++ more with
                      | [] => [no_granules_line site_no]
                      | _ :: _ => []
                      end
      /\ Forall (tagged site_no station_nm site_lat site_lon) more.
Proof.
  induction fuel as [|fuel IH]; intros p arr tr r Hrun; [discriminate|].
  simpl in Hrun.
  destruct (granules_post R granulesearch
              (cmr_param_of concept_id p temporal_str site_lat site_lon))
    as [|g gs].
  - exists []. rewrite app_nil_r.
    destruct arr; simpl in Hrun; injection Hrun as <- <-; repeat split; constructor.
  - match type of Hrun with
    | context [granule_loop R fuel ?a ?b ?c ?d ?e ?f ?g ?h] =>
        destruct (granule_loop R fuel a b c d e f g h) as [[tr' r']|] eqn:Hrest
    end; [|discriminate].
    apply IH in Hrest as [more [-> [Hg [Hp Ht]]]].
    simpl in Hrun. injection Hrun as <- <-.
    exists (map (granule_record site_no station_nm site_lat site_lon) (g :: gs) ++ more).
    rewrite app_assoc. repeat split; try assumption.
    apply Forall_app. split; [|exact Ht].
    apply Forall_forall. intros x Hx. apply in_map_iff in Hx as [g' [<- _]].
    repeat split.
Qed.

Lemma get_site_granules_gets
    (site_no station_nm site_lat site_lon temporal_str : string) (fuel : nat) tr r :
  get_site_granules R fuel site_no station_nm site_lat site_lon temporal_str
  = Some (tr, r) ->
  gets tr = [doisearch].
Proof.
  unfold get_site_granules. destruct (collections_get R doisearch) as [|entry0 others].
  - intros Hrun. injection Hrun as <- _. reflexivity.
  - destruct (granule_loop R fuel site_no station_nm site_lat site_lon temporal_str
                           (CollectionEntry.id entry0) 1 [])
      as [[tr' r']|] eqn:Hloop; [|discriminate].
    apply granule_loop_outcome in Hloop as [more [-> [Hg _]]].
    simpl. intros Hrun. injection Hrun as <- _. simpl. now rewrite Hg.
Qed.

(** X5: when the product is known, a completed [get_site_granules] never
    raises, and it prints the line about missing granules exactly when the
    list it returns is empty. *)
Theorem get_site_granules_diagnostic
    (site_no station_nm site_lat site_lon temporal_str : string) (fuel : nat)
    (entry0 : CollectionEntry.t) (others : list CollectionEntry.t) tr r :
  collections_get R doisearch = entry0 :: others ->
  get_site_granules R fuel site_no station_nm site_lat site_lon temporal_str
  = Some (tr, r) ->
  exists arr,
    r = Return arr
    /\ printed tr = match arr with
                    | [] => [no_granules_line site_no]
                    | _ :: _ => []
                    end.
Proof.
  intros Hlookup. unfold get_site_granules. rewrite Hlookup.
  destruct (granule_loop R fuel site_no station_nm site_lat site_lon temporal_str
                         (CollectionEntry.id entry0) 1 [])
    as [[tr' r']|] eqn:Hloop; [|discriminate].
  apply granule_loop_outcome in Hloop as [more [-> [_ [Hp _]]]].
  simpl. intros Hrun. injection Hrun as <- <-. exists more. now split.
Qed.

(** X6: every record that [get_site_granules] returns carries the site
    number, name, latitude and longitude the call was given. *)
Theorem get_site_granules_tagged
    (site_no station_nm site_lat site_lon temporal_str : string) (fuel : nat)
    tr (arr : list Granule.t) :
  get_site_granules R fuel site_no station_nm site_lat site_lon temporal_str
  = Some (tr, Return arr) ->
  Forall (tagged site_no station_nm site_lat site_lon) arr.
Proof.
  unfold get_site_granules. destruct (collections_get R doisearch) as [|entry0 others];
    [discriminate|].
  destruct (granule_loop R fuel site_no station_nm site_lat site_lon temporal_str
                         (CollectionEntry.id entry0) 1 [])
    as [[tr' r']|] eqn:Hloop; [|discriminate].
  apply granule_loop_outcome in Hloop as [more [-> [_ [_ Ht]]]].
  simpl. intros Hrun. injection Hrun as _ <-. exact Ht.
Qed.

(** X7: a link of an entry is in the record's [granule_urls] exactly when
    its address contains [https], contains [.nc] and does not contain
    [.dmrpp]: no such link is dropped. *)
Theorem granule_urls_complete (site_no station_nm site_lat site_lon : string)
    (g : GranuleEntry.t) (url : string) :
  In url (Granule.granule_urls (granule_record site_no station_nm site_lat site_lon g))
  <-> (exists x, In x (GranuleEntry.links g) /\ Link.href x = url)
      /\ (exists pre post, url = (pre ++ "https" ++ post)%string)
      /\ (exists pre post, url = (pre ++ ".nc" ++ post)%string)
      /\ ~ (exists pre post, url = (pre ++ ".dmrpp" ++ post)%string).
Proof.
  cbn [granule_record Granule.granule_urls].
  rewrite granule_urls_of_spec, <- !str_in_spec.
  destruct (Str.str_in ".dmrpp" url); intuition congruence.
Qed.

Lemma site_loop_acc (fuel : nat) (temporal_str : string) :
  forall (rows : list Site.t) (acc : list Granule.t),
    site_loop R fuel temporal_str rows acc
    = match site_loop R fuel temporal_str rows [] with
      | Some (tr, r) => Some (tr, exc_map (app acc) r)
      | None => None
      end.
Proof.
  induction rows as [|row rows IH]; intros acc.
  - simpl. unfold io_ret. now rewrite app_nil_r.
  - cbn [site_loop]. unfold site_body.
    destruct (get_site_granules R fuel (Site.site_no row) (Site.station_nm row)
                (Site.dec_lat_va row) (Site.dec_long_va row) temporal_str)
      as [[tr [sg|e]]|]; cbn [fuel_bind io_ret app]; [|reflexivity|reflexivity].
    rewrite (IH (acc ++ sg)), (IH sg).
    destruct (site_loop R fuel temporal_str rows []) as [[tr' [out|e']]|];
      cbn [exc_map]; rewrite ?app_nil_r, ?app_assoc; reflexivity.
Qed.

Lemma site_loop_app (fuel : nat) (temporal_str : string) :
  forall (xs ys : list Site.t) (acc : list Granule.t),
    site_loop R fuel temporal_str (xs ++ ys) acc
    = fuel_bind (site_loop R fuel temporal_str xs acc)
                (site_loop R fuel temporal_str ys).
Proof.
  induction xs as [|row xs IH]; intros ys acc.
  - cbn [app site_loop fuel_bind io_ret].
    now destruct (site_loop R fuel temporal_str ys acc) as [[tr r]|].
  - cbn [app site_loop].
    destruct (site_body R fuel temporal_str acc row) as [[tr [a|e]]|];
      cbn [fuel_bind]; [|reflexivity|reflexivity].
    rewrite IH.
    destruct (site_loop R fuel temporal_str xs a) as [[tr1 [a1|e1]]|];
      cbn [fuel_bind]; [|reflexivity|reflexivity].
    destruct (site_loop R fuel temporal_str ys a1) as [[tr2 r2]|];
      [|reflexivity].
    now rewrite app_assoc.
Qed.

Lemma get_all_site_granules_app_aux (fuel : nat) (temporal_str : string)
    (xs ys : list Site.t) tr1 (a : list Granule.t) tr2 r2 :
  get_all_site_granules R fuel xs temporal_str = Some (tr1, Return a) ->
  get_all_site_granules R fuel ys temporal_str = Some (tr2, r2) ->
  get_all_site_granules R fuel (xs ++ ys) temporal_str
  = Some (tr1 ++ tr2, exc_map (app a) r2).
Proof.
  unfold get_all_site_granules. intros Hxs Hys.
  rewrite site_loop_app, Hxs. cbn [fuel_bind].
  now rewrite site_loop_acc, Hys.
Qed.

(** X1: [get_all_site_granules] on two site lists in a row: when the first
    list completes with the granules [a], the whole run makes the requests
    and prints of the first run and then of the second, and returns [a]
    followed by the granules of the second run, or raises what the second
    run raises. *)
Theorem get_all_site_granules_app (fuel : nat) (temporal_str : string)
    (xs ys : list Site.t) tr1 (a : list Granule.t) tr2 r2 :
  get_all_site_granules R fuel xs temporal_str = Some (tr1, Return a) ->
  get_all_site_granules R fuel ys temporal_str = Some (tr2, r2) ->
  get_all_site_granules R fuel (xs ++ ys) temporal_str
  = Some (tr1 ++ tr2, exc_map (app a) r2).
Proof.
  unfold get_all_site_granules. intros Hxs Hys.
  rewrite site_loop_app, Hxs. cbn [fuel_bind].
  now rewrite site_loop_acc, Hys.
Qed.

(** X2: a site whose first page of granules is empty adds nothing to the
    result of [get_all_site_granules]; its three events are the lookup, the
    request for page 1 and the printed line, and the sites after it are
    processed. *)
Theorem get_all_site_granules_empty_site (fuel : nat) (temporal_str : string)
    (pre post : list Site.t) (row : Site.t)
    (entry0 : CollectionEntry.t) (others : list CollectionEntry.t)
    tr1 (a : list Granule.t) tr2 r2 :
  collections_get R doisearch = entry0 :: others ->
  page_of R (CollectionEntry.id entry0) temporal_str
          (Site.dec_lat_va row) (Site.dec_long_va row) 1 = [] ->
  get_all_site_granules R (S fuel) pre temporal_str = Some (tr1, Return a) ->
  get_all_site_granules R (S fuel) post temporal_str = Some (tr2, r2) ->
  get_all_site_granules R (S fuel) (pre ++ row :: post) temporal_str
  = Some (tr1
          ++ [Get doisearch;
              Post granulesearch
                   (cmr_param_of (CollectionEntry.id entry0) 1 temporal_str
                                 (Site.dec_lat_va row) (Site.dec_long_va row));
              Print (no_granules_line (Site.site_no row))]
          ++ tr2,
          exc_map (app a) r2).
Proof.
  intros Hlookup Hpage Hpre Hpost.
  assert (Hrow : get_all_site_granules R (S fuel) [row] temporal_str
                 = Some ([Get doisearch;
                          Post granulesearch
                               (cmr_param_of (CollectionEntry.id entry0) 1 temporal_str
                                             (Site.dec_lat_va row) (Site.dec_long_va row));
                          Print (no_granules_line (Site.site_no row))],
                         Return [])).
  { unfold get_all_site_granules, site_loop, site_body, get_site_granules.
    rewrite Hlookup. cbn [granule_loop]. unfold page_of in Hpage. rewrite Hpage.
    reflexivity. }
  pose proof (get_all_site_granules_app_aux (S fuel) temporal_str [row] post _ [] tr2 r2
                Hrow Hpost) as Htail.
  pose proof (get_all_site_granules_app_aux (S fuel) temporal_str pre ([row] ++ post)
                tr1 a _ _ Hpre Htail) as Hall.
  cbn [app] in Hall |- *. rewrite Hall. destruct r2; reflexivity.
Qed.

Lemma site_loop_gets (fuel : nat) (temporal_str : string) :
  forall (rows : list Site.t) (acc : list Granule.t) tr (arr : list Granule.t),
    site_loop R fuel temporal_str rows acc = Some (tr, Return arr) ->
    gets tr = repeat doisearch (List.length rows).
Proof.
  induction rows as [|row rows IH]; intros acc tr arr Hrun.
  - injection Hrun as <- _. reflexivity.
  - cbn [site_loop] in Hrun. unfold site_body in Hrun.
    destruct (get_site_granules R fuel (Site.site_no row) (Site.station_nm row)
                (Site.dec_lat_va row) (Site.dec_long_va row) temporal_str)
      as [[tr0 [sg|e]]|] eqn:Hcall; cbn [fuel_bind io_ret] in Hrun;
      [|discriminate|discriminate].
    apply get_site_granules_gets in Hcall.
    destruct (site_loop R fuel temporal_str rows (acc ++ sg)) as [[tr' r']|] eqn:Hrest;
      [|discriminate].
    injection Hrun as <- ->. apply IH in Hrest.
    rewrite !gets_app, Hcall, Hrest. reflexivity.
Qed.

(** X3: a completed [get_all_site_granules] has looked the product up once
    for every site of the list, not once for the whole list. *)
Theorem get_all_site_granules_lookups (fuel : nat) (temporal_str : string)
    (site_list : list Site.t) tr (arr : list Granule.t) :
  get_all_site_granules R fuel site_list temporal_str = Some (tr, Return arr) ->
  gets tr = repeat doisearch (List.length site_list).
Proof. apply site_loop_gets. Qed.

(** X4: with an unknown product, [get_all_site_granules] on a non-empty
    site list raises [IndexError] at the first site after one request,
    whatever the fuel; no site is searched. *)
Theorem get_all_site_granules_no_product (fuel : nat) (temporal_str : string)
    (row : Site.t) (rest : list Site.t) :
  collections_get R doisearch = [] ->
  get_all_site_granules R fuel (row :: rest) temporal_str
  = Some ([Get doisearch], Raise IndexError).
Proof.
  intros Hlookup.
  unfold get_all_site_granules, site_loop, site_body, get_site_granules.
  now rewrite Hlookup.
Qed.

End GranuleFinderRuns.

(** ** Temporal Matcher: the table as a whole *)

Lemma for_each_raises {S A : Type} (body : S -> A -> Exc S) (x : A) :
  (forall s, exists e, body s x = Raise e) ->
  forall xs, In x xs -> forall s, exists e, for_each body xs s = Raise e.
Proof.
  intros Hx. induction xs as [|x0 xs IH]; intros Hin s; [destruct Hin|].
  cbn [for_each]. destruct (body s x0) as [s'|e] eqn:Hbody.
  - destruct Hin as [-> | Hin].
    + destruct (Hx s) as [e He]. congruence.
    + cbn [bind]. now apply IH.
  - now exists e.
Qed.

Lemma bind_exc_map {A B C : Type} (f : A -> B) (c : Exc A) (k : B -> Exc C) :
  bind (exc_map f c) k = bind c (fun a => k (f a)).
Proof. now destruct c. Qed.

Lemma exc_map_bind {A B C : Type} (g : B -> C) (c : Exc A) (k : A -> Exc B) :
  exc_map g (bind c k) = bind c (fun a => exc_map g (k a)).
Proof. now destruct c. Qed.

Lemma bind_ext {A B : Type} (c : Exc A) (k1 k2 : A -> Exc B) :
  (forall a, k1 a = k2 a) -> bind c k1 = bind c k2.
Proof. intros Hk. destruct c; [apply Hk | reflexivity]. Qed.

Section TemporalMatcherRuns.

Import retrieval_utils.

Context `{Pandas}.
Variable R : Remote.

Lemma param_loop_acc (row : Granule.t) (gt : Z) :
  forall (param_codes : list string) (cl : closest) (results : list Match.t),
    for_each (param_body R row gt) param_codes (cl, results)
    = exc_map (fun st => (fst st, results ++ snd st))
              (for_each (param_body R row gt) param_codes (cl, [])).
Proof.
  induction param_codes as [|pc pcs IH]; intros cl results.
  - simpl. now rewrite app_nil_r.
  - cbn [for_each]. unfold param_body at 1 3.
    destruct (get_granule_results R (Granule.site_no row) pc gt default_time_window)
      as [rd|e]; cbn [bind fst snd]; [|reflexivity].
    destruct (for_each (result_body row gt) rd cl) as [cl1|e]; cbn [bind];
      [|reflexivity].
    destruct (fst cl1) as [m|]; cbn [bind app].
    + rewrite (IH cl1 (results ++ [m])), (IH cl1 [m]).
      destruct (for_each (param_body R row gt) pcs (cl1, [])) as [[cl2 out]|e];
        cbn [exc_map fst snd]; [now rewrite app_assoc | reflexivity].
    + apply IH.
Qed.

Lemma row_body_acc (param_codes : list string) (results : list Match.t)
    (row : Granule.t) :
  row_body R param_codes results row
  = exc_map (app results) (row_body R param_codes [] row).
Proof.
  unfold row_body. destruct (to_datetime (Granule.datetime row)) as [gt|e];
    cbn [bind]; [|reflexivity].
  rewrite param_loop_acc, bind_exc_map, exc_map_bind.
  apply bind_ext. intros [cl out]. reflexivity.
Qed.

Lemma row_loop_acc (param_codes : list string) :
  forall (rows : list Granule.t) (acc : list Match.t),
    for_each (row_body R param_codes) rows acc
    = exc_map (app acc) (for_each (row_body R param_codes) rows []).
Proof.
  induction rows as [|row rows IH]; intros acc.
  - simpl. now rewrite app_nil_r.
  - cbn [for_each]. rewrite (row_body_acc param_codes acc row).
    destruct (row_body R param_codes [] row) as [out|e]; cbn [exc_map bind app];
      [|reflexivity].
    rewrite (IH (acc ++ out)), (IH out).
    destruct (for_each (row_body R param_codes) rows []) as [out'|e];
      cbn [exc_map]; [now rewrite app_assoc | reflexivity].
Qed.

(** X9: the matched table of two granule tables in a row is the table of
    the first followed by the table of the second, when the first is
    returned; rows keep the order of the granules. *)
Theorem match_granules_app (xs ys : list Granule.t) (param_codes : list string)
    (a : list Match.t) :
  match_granules R xs param_codes = Return a ->
  match_granules R (xs ++ ys) param_codes
  = exc_map (app a) (match_granules R ys param_codes).
Proof.
  unfold match_granules. intros Hxs. rewrite for_each_app, Hxs. cbn [bind].
  apply row_loop_acc.
Qed.

Lemma scan_origin (row : Granule.t) (gt : Z) :
  forall (rd : list Reading.t) (cl cl' : closest),
    for_each (result_body row gt) rd cl = Return cl' ->
    fst cl' = fst cl
    \/ exists r, In r rd /\ fst cl' = Some (closest_result_of row gt r).
Proof.
  induction rd as [|r0 rd IH]; intros cl cl' Hrun.
  - injection Hrun as <-. now left.
  - cbn [for_each] in Hrun. unfold result_body at 1 in Hrun.
    destruct (to_datetime (Reading.result_time r0)) as [t|e]; cbn [bind] in Hrun;
      [|discriminate].
    destruct (Z.abs (t - gt) <? snd cl); cbn [bind] in Hrun;
      apply IH in Hrun as [Hsame | [r [Hin Hr]]].
    + right. exists r0. split; [now left | exact Hsame].
    + right. exists r. split; [now right | exact Hr].
    + now left.
    + right. exists r. split; [now right | exact Hr].
Qed.

Lemma param_loop_sound (row : Granule.t) (gt : Z) (Q : Match.t -> Prop)
    (all_codes : list string) :
  (forall pc rd r,
     In pc all_codes ->
     get_granule_results R (Granule.site_no row) pc gt default_time_window = Return rd ->
     In r rd -> Q (closest_result_of row gt r)) ->
  forall (param_codes : list string) (cl cl' : closest) (results results' : list Match.t),
    incl param_codes all_codes ->
    (forall m, fst cl = Some m -> Q m) ->
    Forall Q results ->
    for_each (param_body R row gt) param_codes (cl, results) = Return (cl', results') ->
    Forall Q results'.
Proof.
  intros HQ. induction param_codes as [|pc pcs IH];
    intros cl cl' results results' Hincl Hcl Hres Hrun.
  - injection Hrun as _ <-. exact Hres.
  - cbn [for_each] in Hrun. unfold param_body at 1 in Hrun.
    destruct (get_granule_results R (Granule.site_no row) pc gt default_time_window)
      as [rd|e] eqn:Hrd; cbn [bind fst snd] in Hrun; [|discriminate].
    destruct (for_each (result_body row gt) rd cl) as [cl1|e] eqn:Hscan;
      cbn [bind] in Hrun; [|discriminate].
    assert (Hcl1 : forall m, fst cl1 = Some m -> Q m).
    { intros m Hm. destruct (scan_origin row gt rd cl cl1 Hscan) as [Hsame | [r [Hin Hr]]].
      - apply Hcl. congruence.
      - rewrite Hr in Hm. injection Hm as <-.
        apply (HQ pc rd r); [apply Hincl; now left | exact Hrd | exact Hin]. }
    assert (Hincl' : incl pcs all_codes).
    { intros x Hx. apply Hincl. now right. }
    destruct (fst cl1) as [m|] eqn:Hfst; cbn [bind] in Hrun.
    + eapply (IH cl1 cl' _ results' Hincl'); [| |exact Hrun].
      * intros m' Hm'. apply Hcl1. congruence.
      * apply Forall_app. split; [exact Hres|]. constructor; [now apply Hcl1 | constructor].
    + eapply (IH cl1 cl' _ results' Hincl'); [| exact Hres | exact Hrun].
      intros m' Hm'. congruence.
Qed.

Lemma row_loop_sound (all_rows : list Granule.t) (param_codes : list string) :
  forall (rows : list Granule.t) (acc out : list Match.t),
    incl rows all_rows ->
    Forall (derived R all_rows param_codes) acc ->
    for_each (row_body R param_codes) rows acc = Return out ->
    Forall (derived R all_rows param_codes) out.
Proof.
  induction rows as [|row rows IH]; intros acc out Hincl Hacc Hrun.
  - injection Hrun as <-. exact Hacc.
  - cbn [for_each] in Hrun.
    destruct (row_body R param_codes acc row) as [acc'|e] eqn:Hrow;
      cbn [bind] in Hrun; [|discriminate].
    eapply IH; [| |exact Hrun].
    + intros x Hx. apply Hincl. now right.
    + unfold row_body in Hrow.
      destruct (to_datetime (Granule.datetime row)) as [gt|e] eqn:Hgt;
        cbn [bind] in Hrow; [|discriminate].
      destruct (for_each (param_body R row gt) param_codes (None, Timedelta_max, acc))
        as [[cl' results']|e] eqn:Hloop; cbn [bind] in Hrow; [|discriminate].
      injection Hrow as <-. cbn [snd].
      eapply (param_loop_sound row gt _ param_codes); [| | | |exact Hloop].
      * intros pc rd r Hpc Hrd Hr. exists row, gt, pc, rd, r.
        repeat split; try assumption. apply Hincl. now left.
      * apply incl_refl.
      * intros m Hm. discriminate Hm.
      * exact Hacc.
Qed.

(** X10: every row of the table that [match_granules] returns comes from a
    granule of the input whose timestamp parses and from a reading that the
    service returned for that granule's site under one of the parameter
    codes: the site fields, the granule time and the URLs are the
    granule's, the value, unit and time are the reading's. *)
Theorem match_granules_sound (df_granules : list Granule.t)
    (param_codes : list string) (out : list Match.t) :
  match_granules R df_granules param_codes = Return out ->
  Forall (derived R df_granules param_codes) out.
Proof.
  apply row_loop_sound; [apply incl_refl | constructor].
Qed.

Lemma param_loop_last (row : Granule.t) (gt : Z) :
  forall (param_codes : list string) (cl cl' : closest) (results results' : list Match.t)
         (m : Match.t),
    param_codes <> [] ->
    for_each (param_body R row gt) param_codes (cl, results) = Return (cl', results') ->
    fst cl' = Some m ->
    exists rows, results' = results ++ rows ++ [m].
Proof.
  intros param_codes cl cl' results results' m Hne Hrun Hm.
  destruct (exists_last Hne) as [pcs [pc ->]].
  rewrite for_each_app in Hrun.
  rewrite param_loop_acc in Hrun.
  destruct (for_each (param_body R row gt) pcs (cl, [])) as [[cl1 out]|e];
    cbn [exc_map bind fst snd for_each] in Hrun; [|discriminate].
  unfold param_body at 1 in Hrun. cbn [fst snd] in Hrun.
  destruct (get_granule_results R (Granule.site_no row) pc gt default_time_window)
    as [rd|e]; cbn [bind] in Hrun; [|discriminate].
  destruct (for_each (result_body row gt) rd cl1) as [cl2|e]; cbn [bind] in Hrun;
    [|discriminate].
  destruct (fst cl2) as [m2|] eqn:Hfst; cbn [bind] in Hrun; injection Hrun as <- <-.
  - exists out. rewrite Hfst in Hm. injection Hm as <-. now rewrite app_assoc.
  - congruence.
Qed.

(** X11: when the requests of a granule return, the readings parse and some
    reading is closer than [Timedelta.max], the last row appended for the
    granule holds the first reading of least distance over all parameter
    codes. *)
Theorem match_last_row_closest (row : Granule.t) (gt : Z)
    (param_codes : list string) (datas : list (list Reading.t))
    (results : list Match.t) (x : Reading.t) :
  Forall2 (fun pc rd =>
             get_granule_results R (Granule.site_no row) pc gt default_time_window
             = Return rd) param_codes datas ->
  Forall parses (List.concat datas) ->
  In x (List.concat datas) ->
  time_between gt x < Timedelta_max ->
  exists pre r post rows cl',
    List.concat datas = pre ++ r :: post
    /\ (forall y, In y pre -> time_between gt r < time_between gt y)
    /\ (forall y, In y post -> time_between gt r <= time_between gt y)
    /\ for_each (param_body R row gt) param_codes ((None, Timedelta_max), results)
       = Return (cl', results ++ rows ++ [closest_result_of row gt r]).
Proof.
  intros Hdata Hparse Hx Hlt.
  destruct (param_loop_closest R row gt param_codes datas Hdata Hparse
              (None, Timedelta_max) results) as [cl' [results' [Hloop Hscan]]].
  destruct (scan_first_closest row gt (List.concat datas) Hparse None Timedelta_max)
    as [st' [Hscan' [[_ Hall] | [pre [r [post [Hsplit [Hst [_ [Hpre Hpost]]]]]]]]]].
  - specialize (Hall x Hx). lia.
  - rewrite Hscan in Hscan'. injection Hscan' as ->. subst st'.
    assert (Hne : param_codes <> []).
    { intros ->. inversion Hdata; subst. destruct Hx. }
    destruct (param_loop_last row gt param_codes _ _ results results'
                (closest_result_of row gt r) Hne Hloop eq_refl) as [rows ->].
    exists pre, r, post, rows, (Some (closest_result_of row gt r), time_between gt r).
    repeat split; assumption.
Qed.

(** X12: a request of a granule that raises, or a reading returned for it
    whose timestamp pandas rejects, makes [match_granules] raise: no table is
    returned, whatever the other granules gave. *)
Theorem match_granules_aborts (pre post : list Granule.t) (row : Granule.t)
    (param_codes : list string) (gt : Z) (pc : string) :
  to_datetime (Granule.datetime row) = Return gt ->
  In pc param_codes ->
  (exists e,
     get_granule_results R (Granule.site_no row) pc gt default_time_window = Raise e)
  \/ (exists rd r e,
        get_granule_results R (Granule.site_no row) pc gt default_time_window
        = Return rd
        /\ In r rd /\ to_datetime (Reading.result_time r) = Raise e) ->
  exists e', match_granules R (pre ++ row :: post) param_codes = Raise e'.
Proof.
  intros Hgt Hpc Hbad. unfold match_granules.
  assert (Hscan : forall rd r e,
            In r rd -> to_datetime (Reading.result_time r) = Raise e ->
            forall cl, exists e', for_each (result_body row gt) rd cl = Raise e').
  { intros rd r e Hr He. apply for_each_raises with (x := r); [|exact Hr].
    intros cl. unfold result_body. rewrite He. now exists e. }
  assert (Hloop : forall st, exists e,
            for_each (param_body R row gt) param_codes st = Raise e).
  { apply for_each_raises with (x := pc); [|exact Hpc].
    intros st. unfold param_body.
    destruct Hbad as [[e He] | [rd [r [e [Hrd [Hr He]]]]]].
    - rewrite He. now exists e.
    - rewrite Hrd. cbn [bind].
      destruct (Hscan rd r e Hr He (fst st)) as [e' He']. rewrite He'. now exists e'. }
  apply for_each_raises with (x := row); [|apply in_elt].
  intros results. unfold row_body. rewrite Hgt. cbn [bind].
  destruct (Hloop (None, Timedelta_max, results)) as [e He]. rewrite He. now exists e.
Qed.

(** X14: [get_granule_results] returns the empty list, without raising, for
    an answer with another status than 200, for a body without [value] and
    for a [value] without [timeSeries]. *)
Theorem get_granule_results_no_series (site_no param_cd : string)
    (granule_time time_window : Z) :
  let response := iv_get R (iv_url site_no param_cd granule_time time_window) in
  IVResponse.status_code response <> 200
  \/ IVData.value (IVResponse.json response) = None
  \/ (exists body, IVData.value (IVResponse.json response) = Some body
                   /\ IVBody.timeSeries body = None) ->
  get_granule_results R site_no param_cd granule_time time_window = Return [].
Proof.
  intros response Hcase. unfold get_granule_results. fold response.
  destruct (Z.eqb_spec (IVResponse.status_code response) 200) as [H200|H200];
    [|reflexivity].
  destruct Hcase as [Hs | [Hv | [body [Hv Ht]]]]; [contradiction | |].
  - now rewrite Hv.
  - now rewrite Hv, Ht.
Qed.

(** X15: a 200 answer with a time series whose [values] list is empty makes
    [get_granule_results] raise [IndexError]; the readings of the other time
    series are not returned. *)
Theorem get_granule_results_empty_values (site_no param_cd : string)
    (granule_time time_window : Z) (body : IVBody.t) (tss : list IVSeries.t)
    (ts : IVSeries.t) :
  let response := iv_get R (iv_url site_no param_cd granule_time time_window) in
  IVResponse.status_code response = 200 ->
  IVData.value (IVResponse.json response) = Some body ->
  IVBody.timeSeries body = Some tss ->
  In ts tss ->
  IVSeries.values ts = [] ->
  get_granule_results R site_no param_cd granule_time time_window = Raise IndexError.
Proof.
  intros response Hstatus Hvalue Hts Hin Hempty. unfold get_granule_results.
  fold response. rewrite Hstatus, Hvalue, Hts. cbn [Z.eqb Pos.eqb].
  apply series_loop_empty_group. now exists ts.
Qed.

End TemporalMatcherRuns.

(** ** Site Locator: tab-separated bodies *)

Section Tables.

Lemma all_chars_impl (p q : ascii -> bool) (s : string) :
  (forall c, p c = true -> q c = true) ->
  all_chars p s = true -> all_chars q s = true.
Proof.
  intros Hpq. induction s as [|c s IH]; simpl; [reflexivity|].
  rewrite !andb_true_iff. intros [Hc Hs]. split; [now apply Hpq | now apply IH].
Qed.

Lemma all_chars_app (p : ascii -> bool) (s1 s2 : string) :
  all_chars p (s1 ++ s2)%string = all_chars p s1 && all_chars p s2.
Proof.
  induction s1 as [|c s1 IH]; simpl; [reflexivity|]. now rewrite IH, andb_assoc.
Qed.

Lemma splitlines_newline (rest : string) :
  Str.splitlines (String nl rest) = EmptyString :: Str.splitlines rest.
Proof. destruct rest; reflexivity. Qed.

Lemma splitlines_char (c : ascii) (s : string) :
  Str.is_linebreak c = false ->
  Str.splitlines (String c s) = Str.cons_char c (Str.splitlines s).
Proof. intros Hc. cbn [Str.splitlines]. now rewrite Hc. Qed.

Lemma splitlines_prefix (l rest : string) :
  all_chars no_break l = true ->
  Str.splitlines (l ++ String nl rest)%string = l :: Str.splitlines rest.
Proof.
  induction l as [|c l IH]; intros Hl.
  - apply splitlines_newline.
  - cbn [all_chars] in Hl. apply andb_true_iff in Hl as [Hc Hl].
    unfold no_break in Hc. apply negb_true_iff in Hc.
    cbn [append]. rewrite (splitlines_char c _ Hc), (IH Hl). reflexivity.
Qed.

Lemma splitlines_single (l : string) :
  all_chars no_break l = true -> l <> EmptyString -> Str.splitlines l = [l].
Proof.
  induction l as [|c l IH]; intros Hl Hne; [contradiction|].
  cbn [all_chars] in Hl. apply andb_true_iff in Hl as [Hc Hl].
  unfold no_break in Hc. apply negb_true_iff in Hc.
  rewrite (splitlines_char c _ Hc). destruct l as [|c' l'].
  - reflexivity.
  - rewrite (IH Hl); [reflexivity | discriminate].
Qed.

Lemma splitlines_concat (lines : list string) :
  Forall (fun l => all_chars no_break l = true /\ l <> EmptyString) lines ->
  Str.splitlines (String.concat Ex.newline lines) = lines.
Proof.
  induction 1 as [|x xs [Hx Hne] Hxs IH]; [reflexivity|].
  destruct xs as [|y ys].
  - now apply splitlines_single.
  - change (String.concat Ex.newline (x :: y :: ys))
      with (x ++ String nl (String.concat Ex.newline (y :: ys)))%string.
    now rewrite (splitlines_prefix _ _ Hx), IH.
Qed.

Lemma split_char (c : ascii) (s : string) :
  Ascii.eqb c Str.tab = false ->
  Str.split Str.tab (String c s) = Str.cons_char c (Str.split Str.tab s).
Proof. intros Hc. cbn [Str.split]. now rewrite Hc. Qed.

Lemma split_prefix (cell rest : string) :
  all_chars no_tab cell = true ->
  Str.split Str.tab (cell ++ String Str.tab rest)%string
  = cell :: Str.split Str.tab rest.
Proof.
  induction cell as [|c cell IH]; intros Hcell.
  - reflexivity.
  - cbn [all_chars] in Hcell. apply andb_true_iff in Hcell as [Hc Hcell].
    unfold no_tab in Hc. apply negb_true_iff in Hc.
    cbn [append]. rewrite (split_char c _ Hc), (IH Hcell). reflexivity.
Qed.

Lemma split_single (cell : string) :
  all_chars no_tab cell = true -> Str.split Str.tab cell = [cell].
Proof.
  induction cell as [|c cell IH]; intros Hcell; [reflexivity|].
  cbn [all_chars] in Hcell. apply andb_true_iff in Hcell as [Hc Hcell].
  unfold no_tab in Hc. apply negb_true_iff in Hc.
  now rewrite (split_char c _ Hc), (IH Hcell).
Qed.

Lemma split_concat (cells : list string) :
  cells <> [] ->
  Forall (fun cell => all_chars no_tab cell = true) cells ->
  Str.split Str.tab (String.concat (String Str.tab EmptyString) cells) = cells.
Proof.
  intros Hne Hcells. induction Hcells as [|x xs Hx Hxs IH]; [contradiction|].
  destruct xs as [|y ys].
  - now apply split_single.
  - change (String.concat (String Str.tab EmptyString) (x :: y :: ys))
      with (x ++ String Str.tab
                   (String.concat (String Str.tab EmptyString) (y :: ys)))%string.
    rewrite (split_prefix _ _ Hx), IH; [reflexivity | discriminate].
Qed.

Lemma concat_no_break (cells : list string) :
  Forall (fun cell => cell_ok cell = true) cells ->
  all_chars no_break (String.concat (String Str.tab EmptyString) cells) = true.
Proof.
  induction 1 as [|x xs Hx Hxs IH]; [reflexivity|].
  assert (Hx' : all_chars no_break x = true).
  { revert Hx. apply all_chars_impl. intros c Hc.
    apply andb_true_iff in Hc as [_ Hc]. exact Hc. }
  destruct xs as [|y ys]; [exact Hx'|].
  change (String.concat (String Str.tab EmptyString) (x :: y :: ys))
    with (x ++ String Str.tab
                 (String.concat (String Str.tab EmptyString) (y :: ys)))%string.
  rewrite all_chars_app, Hx'. cbn [all_chars andb]. now rewrite IH.
Qed.

Lemma row_ok_split (cells : list string) :
  row_ok cells ->
  Str.split Str.tab (String.concat (String Str.tab EmptyString) cells) = cells.
Proof.
  intros [Hcells Hline]. apply split_concat.
  - intros ->. discriminate Hline.
  - revert Hcells. apply Forall_impl. intros cell. apply all_chars_impl.
    intros c Hc. apply andb_true_iff in Hc as [Hc _]. exact Hc.
Qed.

Lemma row_ok_line (cells : list string) :
  row_ok cells ->
  let line := String.concat (String Str.tab EmptyString) cells in
  all_chars no_break line = true /\ line <> EmptyString /\ is_data_line line = true.
Proof.
  intros [Hcells Hline] line. split; [now apply concat_no_break|]. split; [|exact Hline].
  intros Hempty. unfold line in Hempty. rewrite Hempty in Hline. discriminate Hline.
Qed.

(** The data lines of a body rendered from comment lines, a header row, a
    units row and data rows are the rendered rows of the table. *)
Lemma data_lines_of_rdb (comments : list string) (table : list (list string)) :
  Forall comment_ok comments ->
  Forall row_ok table ->
  retrieval_utils.data_lines_of
    (Str.splitlines (Ex.rdb (map (fun c => [c]) comments ++ table)))
  = map (String.concat (String Str.tab EmptyString)) table.
Proof.
  intros Hcomments Htable. unfold Ex.rdb.
  rewrite map_app, map_map. cbn [String.concat].
  rewrite map_id.
  rewrite splitlines_concat.
  - unfold retrieval_utils.data_lines_of. rewrite filter_app.
    replace (filter _ comments) with (@nil string).
    + cbn [app]. apply forallb_filter_id. apply forallb_forall.
      intros line Hline. apply in_map_iff in Hline as [cells [<- Hcells]].
      rewrite Forall_forall in Htable. apply (row_ok_line cells (Htable cells Hcells)).
    + symmetry. clear Htable. induction Hcomments as [|c cs [Hc _] _ IH];
        [reflexivity|]. cbn [filter]. now rewrite Hc.
  - apply Forall_app. split.
    + revert Hcomments. apply Forall_impl. intros c [Hstart Hbreak].
      split; [exact Hbreak|]. intros ->. discriminate Hstart.
    + apply Forall_forall. intros line Hline.
      apply in_map_iff in Hline as [cells [<- Hcells]].
      rewrite Forall_forall in Htable.
      destruct (row_ok_line cells (Htable cells Hcells)) as [Hb [Hne _]]. now split.
Qed.

End Tables.

(** ** Site Locator: the requests of a call *)

Section SiteLocatorRuns.

Context `{Pandas}.
Variable R : Remote.

(** X16: a 200 answer whose body is rendered from comment lines, a header
    row, a units row and data rows is read back as that table:
    [get_param_sites] hands the data rows and the header cells to pandas,
    whatever the units row holds, prints the length of the frame and
    returns its four site columns. *)
Theorem get_param_sites_reads_table
    (param_codes_str state_code start_date end_date : string)
    (comments : list string) (header units : list string) (rows : list (list string))
    (df : frame) :
  let url := retrieval_utils.site_url param_codes_str state_code start_date end_date in
  SiteResponse.status_code (site_get R url) = 200 ->
  SiteResponse.text (site_get R url)
  = Ex.rdb (map (fun c => [c]) comments ++ header :: units :: rows) ->
  Forall comment_ok comments ->
  Forall row_ok (header :: units :: rows) ->
  DataFrame rows header = Return df ->
  empty df = false ->
  retrieval_utils.get_param_sites R param_codes_str state_code start_date end_date
  = ([Get url; Print (Str.of_nat (len df) ++ " sites found for param codes")%string],
     getitem_columns df retrieval_utils.site_columns).
Proof.
  intros url Hstatus Htext Hcomments Htable Hdf Hempty.
  unfold retrieval_utils.get_param_sites. fold url.
  rewrite Hstatus, Htext, (data_lines_of_rdb comments _ Hcomments Htable).
  cbn [Z.eqb Pos.eqb map skipn].
  inversion Htable as [|? ? Hheader Hrest]; subst.
  inversion Hrest as [|? ? Hunits Hrows]; subst.
  rewrite (row_ok_split header Hheader).
  replace (map (Str.split Str.tab) (map (String.concat (String Str.tab EmptyString)) rows))
    with rows.
  - rewrite Hdf. cbn [lift io_bind emit app]. rewrite Hempty. cbn [negb].
    destruct (getitem_columns df retrieval_utils.site_columns); reflexivity.
  - clear - Hrows. induction Hrows as [|r rs Hr Hrs IH]; [reflexivity|].
    cbn [map]. now rewrite (row_ok_split r Hr), <- IH.
Qed.

Lemma state_body_trace (param_codes_str : string) (site_types : list string)
    (dfs : list frame) (state_code : string) :
  fst (retrieval_utils_appeearsTest.state_body R param_codes_str site_types dfs state_code)
  = [Get (retrieval_utils_appeearsTest.site_url param_codes_str state_code)].
Proof.
  unfold retrieval_utils_appeearsTest.state_body.
  destruct (SiteResponse.status_code _ =? 200); [|reflexivity].
  destruct (retrieval_utils.data_lines_of _) as [|first rest]; [reflexivity|].
  destruct (DataFrame _ _) as [df|e]; [|reflexivity].
  cbn [lift io_bind emit app]. destruct (empty df); [reflexivity|]. cbn [negb].
  destruct (getitem_isin df "site_tp_cd" site_types) as [df'|e]; [|reflexivity].
  cbn [io_bind app].
  destruct (getitem_columns df' retrieval_utils.site_columns); reflexivity.
Qed.

Lemma state_loop_trace (param_codes_str : string) (site_types : list string) :
  forall (state_codes : list string) (dfs dfs' : list frame) tr,
    io_for_each (retrieval_utils_appeearsTest.state_body R param_codes_str site_types)
                state_codes dfs = (tr, Return dfs') ->
    tr = map (fun sc => Get (retrieval_utils_appeearsTest.site_url param_codes_str sc))
             state_codes.
Proof.
  induction state_codes as [|sc scs IH]; intros dfs dfs' tr Hrun.
  - injection Hrun as <- _. reflexivity.
  - cbn [io_for_each] in Hrun.
    pose proof (state_body_trace param_codes_str site_types dfs sc) as Htr.
    destruct (retrieval_utils_appeearsTest.state_body R param_codes_str site_types dfs sc)
      as [tr0 [dfs1|e]]; cbn [fst io_bind] in Htr, Hrun; [|discriminate].
    destruct (io_for_each
                (retrieval_utils_appeearsTest.state_body R param_codes_str site_types)
                scs dfs1) as [tr1 r1] eqn:Hrest.
    injection Hrun as <- ->. apply IH in Hrest. subst. reflexivity.
Qed.

(** X17: a batch [get_param_sites] that returns a table has requested every
    region once, in the order of [state_codes], and has printed exactly one
    line. *)
Theorem get_param_sites_batch_requests (param_codes_str : string)
    (state_codes site_types : list string) tr (states_df : frame) :
  retrieval_utils_appeearsTest.get_param_sites R param_codes_str state_codes site_types
  = (tr, Return states_df) ->
  gets tr = map (retrieval_utils_appeearsTest.site_url param_codes_str) state_codes
  /\ exists line, printed tr = [line].
Proof.
  unfold retrieval_utils_appeearsTest.get_param_sites.
  destruct (io_for_each
              (retrieval_utils_appeearsTest.state_body R param_codes_str site_types)
              state_codes []) as [tr0 [dfs|e]] eqn:Hloop; cbn [io_bind]; [|discriminate].
  apply state_loop_trace in Hloop. subst tr0.
  assert (Hg : forall scs,
            gets (map (fun sc => Get (retrieval_utils_appeearsTest.site_url
                                        param_codes_str sc)) scs)
            = map (retrieval_utils_appeearsTest.site_url param_codes_str) scs).
  { induction scs as [|sc scs IH]; simpl; [reflexivity | now rewrite IH]. }
  assert (Hp : forall scs,
            printed (map (fun sc => Get (retrieval_utils_appeearsTest.site_url
                                           param_codes_str sc)) scs) = []).
  { induction scs as [|sc scs IH]; simpl; [reflexivity | exact IH]. }
  destruct dfs as [|df0 dfs].
  - cbn. intros Hrun. injection Hrun as <- _.
    rewrite gets_app, printed_app, Hg, Hp. cbn. rewrite app_nil_r.
    split; [reflexivity | now eexists].
  - destruct (concat (df0 :: dfs)) as [sdf|e]; cbn; [|discriminate].
    intros Hrun. injection Hrun as <- _.
    rewrite gets_app, printed_app, Hg, Hp. cbn. rewrite app_nil_r.
    split; [reflexivity | now eexists].
Qed.

(** X18: when pandas raises while a region of the batch is processed, for
    instance on a body without the [site_tp_cd] column, the batch
    [get_param_sites] raises the same: the regions after it are not
    requested, nothing is printed and the tables of the regions before it
    are lost. *)
Theorem get_param_sites_batch_aborts (param_codes_str : string)
    (pre post site_types : list string) (state_code : string)
    (dfs : list frame) (first : string) (rest : list string) (df : frame) (e : exn) tr :
  let response :=
    site_get R (retrieval_utils_appeearsTest.site_url param_codes_str state_code) in
  let data_lines :=
    retrieval_utils.data_lines_of (Str.splitlines (SiteResponse.text response)) in
  io_for_each (retrieval_utils_appeearsTest.state_body R param_codes_str site_types)
              pre [] = (tr, Return dfs) ->
  SiteResponse.status_code response = 200 ->
  data_lines = first :: rest ->
  DataFrame (map (Str.split Str.tab) (skipn 2 data_lines)) (Str.split Str.tab first)
  = Return df ->
  empty df = false ->
  getitem_isin df "site_tp_cd" site_types = Raise e ->
  retrieval_utils_appeearsTest.get_param_sites
    R param_codes_str (pre ++ state_code :: post) site_types
  = (map (fun sc => Get (retrieval_utils_appeearsTest.site_url param_codes_str sc))
         (pre ++ [state_code]),
     Raise e).
Proof.
  intros response data_lines Hpre Hstatus Hlines Hdf Hempty Hisin.
  unfold retrieval_utils_appeearsTest.get_param_sites.
  rewrite io_for_each_app, Hpre. cbn [io_bind io_for_each].
  pose proof (state_loop_trace _ _ _ _ _ _ Hpre) as ->.
  unfold retrieval_utils_appeearsTest.state_body at 1.
  fold response. rewrite Hstatus. cbn [Z.eqb Pos.eqb]. fold data_lines.
  rewrite Hlines. rewrite Hlines in Hdf. rewrite Hdf.
  cbn [lift io_bind emit app]. rewrite Hempty. cbn [negb]. rewrite Hisin.
  cbn [io_bind app]. now rewrite map_app.
Qed.

End SiteLocatorRuns.

(** ** Further statements at concrete inputs *)

Section MoreWitnesses.

Import retrieval_utils.
Existing Instance Ref.pandas.

(** The site at (30.4, -91.2) has one granule, the site at (31.0, -92.0) none. *)
Lemma get_site_granules_diagnostic_witness :
  (exists arr,
     Return [granule_record "07374000" "Baton Rouge" "30.4" "-91.2" Ex.entry_full]
     = Return arr
     /\ printed [Get doisearch;
                 Post granulesearch
                      (cmr_param_of "C2408750690-LPCLOUD" 1 "2023" "30.4" "-91.2");
                 Post granulesearch
                      (cmr_param_of "C2408750690-LPCLOUD" 2 "2023" "30.4" "-91.2")]
        = match arr with
          | [] => [no_granules_line "07374000"]
          | _ :: _ => []
          end)
  /\ exists arr,
       @Return (list Granule.t) [] = Return arr
       /\ printed [Get doisearch;
                   Post granulesearch
                        (cmr_param_of "C2408750690-LPCLOUD" 1 "2023" "31.0" "-92.0");
                   Print (no_granules_line "07375000")]
          = match arr with
            | [] => [no_granules_line "07375000"]
            | _ :: _ => []
            end.
Proof.
  split.
  - apply (get_site_granules_diagnostic Ex.remote_one_site
             "07374000" "Baton Rouge" "30.4" "-91.2" "2023" 2%nat
             {| CollectionEntry.id := "C2408750690-LPCLOUD" |} []).
    + reflexivity.
    + vm_compute. reflexivity.
  - apply (get_site_granules_diagnostic Ex.remote_one_site
             "07375000" "Alexandria" "31.0" "-92.0" "2023" 1%nat
             {| CollectionEntry.id := "C2408750690-LPCLOUD" |} []).
    + reflexivity.
    + vm_compute. reflexivity.
Defined.

Lemma get_site_granules_tagged_witness :
  Forall (tagged "07374000" "Baton Rouge" "30.4" "-91.2")
         [granule_record "07374000" "Baton Rouge" "30.4" "-91.2" Ex.entry_full;
          granule_record "07374000" "Baton Rouge" "30.4" "-91.2" Ex.entry_bare].
Proof.
  apply (get_site_granules_tagged Ex.remote
           "07374000" "Baton Rouge" "30.4" "-91.2" "2023" 2%nat
           [Get doisearch;
            Post granulesearch (cmr_param_of "C2408750690-LPCLOUD" 1 "2023" "30.4" "-91.2");
            Post granulesearch (cmr_param_of "C2408750690-LPCLOUD" 2 "2023" "30.4" "-91.2")]).
  vm_compute. reflexivity.
Defined.

(** The link ending in [.nc.dmrpp] is dropped, the plain data link is kept. *)
Lemma granule_urls_complete_witness :
  In "https://data.example/EMIT_L2A_RFL_001.nc"
     (Granule.granule_urls
        (granule_record "07374000" "Baton Rouge" "30.4" "-91.2" Ex.entry_full))
  /\ ~ In "https://data.example/EMIT_L2A_RFL_001.nc.dmrpp"
          (Granule.granule_urls
             (granule_record "07374000" "Baton Rouge" "30.4" "-91.2" Ex.entry_full)).
Proof.
  split.
  - apply (proj2 (granule_urls_complete "07374000" "Baton Rouge" "30.4" "-91.2"
                    Ex.entry_full "https://data.example/EMIT_L2A_RFL_001.nc")).
    split; [|split; [|split]].
    + eexists. split; [left; reflexivity | reflexivity].
    + now exists "", "://data.example/EMIT_L2A_RFL_001.nc".
    + now exists "https://data.example/EMIT_L2A_RFL_001", "".
    + intros Hsub. apply str_in_spec in Hsub. vm_compute in Hsub. discriminate Hsub.
  - intros Hin.
    apply (proj1 (granule_urls_complete "07374000" "Baton Rouge" "30.4" "-91.2"
                    Ex.entry_full "https://data.example/EMIT_L2A_RFL_001.nc.dmrpp"))
      in Hin.
    destruct Hin as [_ [_ [_ Hno]]]. apply Hno.
    now exists "https://data.example/EMIT_L2A_RFL_001.nc", "".
Defined.

(** A site with a granule, then a site without. *)
Lemma get_all_site_granules_app_witness :
  exists tr r,
    get_all_site_granules Ex.remote_one_site 2
      ([Ex.site "07374000" "30.4" "-91.2"] ++ [Ex.site "07375000" "31.0" "-92.0"]) "2023"
    = Some (tr, r).
Proof.
  eexists. eexists.
  eapply (get_all_site_granules_app Ex.remote_one_site 2%nat "2023"
            [Ex.site "07374000" "30.4" "-91.2"] [Ex.site "07375000" "31.0" "-92.0"]).
  - vm_compute. reflexivity.
  - vm_compute. reflexivity.
Defined.

(** The site without granules between two runs of the site with one. *)
Lemma get_all_site_granules_empty_site_witness :
  exists tr r,
    get_all_site_granules Ex.remote_one_site 2
      ([Ex.site "07374000" "30.4" "-91.2"]
       ++ Ex.site "07375000" "31.0" "-92.0" :: [Ex.site "07374000" "30.4" "-91.2"]) "2023"
    = Some (tr, r).
Proof.
  eexists. eexists.
  eapply (get_all_site_granules_empty_site Ex.remote_one_site 1%nat "2023"
            [Ex.site "07374000" "30.4" "-91.2"] [Ex.site "07374000" "30.4" "-91.2"]
            (Ex.site "07375000" "31.0" "-92.0")
            {| CollectionEntry.id := "C2408750690-LPCLOUD" |} []).
  - reflexivity.
  - vm_compute. reflexivity.
  - vm_compute. reflexivity.
  - vm_compute. reflexivity.
Defined.

(** Two sites, two lookups. *)
Lemma get_all_site_granules_lookups_witness :
  exists tr,
    gets tr = repeat doisearch
                     (List.length [Ex.site "07374000" "30.4" "-91.2";
                                   Ex.site "07375000" "31.0" "-92.0"]).
Proof.
  eexists.
  eapply (get_all_site_granules_lookups Ex.remote_one_site 2%nat "2023"
            [Ex.site "07374000" "30.4" "-91.2"; Ex.site "07375000" "31.0" "-92.0"]).
  vm_compute. reflexivity.
Defined.

Lemma get_all_site_granules_no_product_witness :
  get_all_site_granules Ex.remote_no_product 0
    [Ex.site "07374000" "30.4" "-91.2"; Ex.site "07375000" "31.0" "-92.0"] "2023"
  = Some ([Get doisearch], Raise IndexError).
Proof.
  apply (get_all_site_granules_no_product Ex.remote_no_product 0%nat "2023"
           (Ex.site "07374000" "30.4" "-91.2") [Ex.site "07375000" "31.0" "-92.0"]).
  reflexivity.
Defined.

(** A search that always answers one entry. *)
Lemma get_site_granules_diverges_witness :
  get_site_granules Ex.remote_endless 50 "07374000" "Baton Rouge" "30.4" "-91.2" "2023"
  = None.
Proof.
  apply (get_site_granules_diverges Ex.remote_endless
           "07374000" "Baton Rouge" "30.4" "-91.2" "2023"
           {| CollectionEntry.id := "C2408750690-LPCLOUD" |} []).
  - reflexivity.
  - intros q _. discriminate.
Defined.

(** Two granules at noon, one parameter code. *)
Lemma match_granules_app_witness :
  match_granules Ex.remote ([Ex.granule Ex.noon] ++ [Ex.granule Ex.noon]) ["00065"]
  = exc_map (app [Ex.matched "2023-08-01T12:05:00.000Z"])
            (match_granules Ex.remote [Ex.granule Ex.noon] ["00065"]).
Proof.
  apply (match_granules_app (H := Ref.pandas) Ex.remote
           [Ex.granule Ex.noon] [Ex.granule Ex.noon] ["00065"]).
  vm_compute. reflexivity.
Defined.

Lemma match_granules_sound_witness :
  Forall (derived Ex.remote [Ex.granule Ex.noon] ["00060"; "00065"])
         [Ex.matched "2023-08-01T11:40:00.000Z"; Ex.matched "2023-08-01T12:05:00.000Z"].
Proof.
  apply (match_granules_sound (H := Ref.pandas) Ex.remote
           [Ex.granule Ex.noon] ["00060"; "00065"]).
  vm_compute. reflexivity.
Defined.

(** The last of the two rows of the granule at noon holds the 12:05 reading. *)
Lemma match_last_row_closest_witness :
  exists pre r post rows cl',
    List.concat [[Ex.reading "2023-08-01T11:40:00.000Z"];
                 [Ex.reading "2023-08-01T12:05:00.000Z";
                  Ex.reading "2023-08-01T11:55:00.000Z"]]
    = pre ++ r :: post
    /\ (forall y, In y pre -> time_between Ex.noon_ns r < time_between Ex.noon_ns y)
    /\ (forall y, In y post -> time_between Ex.noon_ns r <= time_between Ex.noon_ns y)
    /\ for_each (param_body Ex.remote (Ex.granule Ex.noon) Ex.noon_ns)
                ["00060"; "00065"] ((None, Timedelta_max), [])
       = Return (cl', [] ++ rows ++ [closest_result_of (Ex.granule Ex.noon) Ex.noon_ns r]).
Proof.
  apply (match_last_row_closest (H := Ref.pandas) Ex.remote (Ex.granule Ex.noon)
           Ex.noon_ns ["00060"; "00065"]
           [[Ex.reading "2023-08-01T11:40:00.000Z"];
            [Ex.reading "2023-08-01T12:05:00.000Z";
             Ex.reading "2023-08-01T11:55:00.000Z"]] []
           (Ex.reading "2023-08-01T11:40:00.000Z")).
  - constructor; [vm_compute; reflexivity|].
    constructor; [vm_compute; reflexivity|]. constructor.
  - repeat (constructor; [eexists; vm_compute; reflexivity|]). constructor.
  - left. reflexivity.
  - vm_compute. reflexivity.
Defined.

(** Parameter 00011 answers a reading whose time is no timestamp. *)
Lemma match_granules_aborts_witness :
  exists e',
    match_granules Ex.remote_odd ([Ex.granule Ex.noon] ++ Ex.granule Ex.noon :: [])
                   ["00065"; "00011"]
    = Raise e'.
Proof.
  apply (match_granules_aborts (H := Ref.pandas) Ex.remote_odd
           [Ex.granule Ex.noon] [] (Ex.granule Ex.noon) ["00065"; "00011"]
           Ex.noon_ns "00011").
  - vm_compute. reflexivity.
  - right. left. reflexivity.
  - right. exists [Ex.reading "yesterday"], (Ex.reading "yesterday"), DateParseError.
    split; [vm_compute; reflexivity|]. split; [left; reflexivity|].
    vm_compute. reflexivity.
Defined.

(** Parameter 00090 is answered with status 404. *)
Lemma get_granule_results_no_series_witness :
  get_granule_results Ex.remote "07374000" "00090" Ex.noon_ns 30 = Return [].
Proof.
  apply (get_granule_results_no_series (H := Ref.pandas) Ex.remote
           "07374000" "00090" Ex.noon_ns 30).
  left. vm_compute. discriminate.
Defined.

(** Parameter 00095 answers a time series without any group. *)
Lemma get_granule_results_empty_values_witness :
  get_granule_results Ex.remote_odd "07374000" "00095" Ex.noon_ns 30 = Raise IndexError.
Proof.
  apply (get_granule_results_empty_values (H := Ref.pandas) Ex.remote_odd
           "07374000" "00095" Ex.noon_ns 30
           {| IVBody.timeSeries :=
                Some [Ex.series [["2023-08-01T12:02:00.000Z"]]; Ex.series []] |}
           [Ex.series [["2023-08-01T12:02:00.000Z"]]; Ex.series []]
           (Ex.series [])).
  - vm_compute. reflexivity.
  - vm_compute. reflexivity.
  - reflexivity.
  - right. left. reflexivity.
  - reflexivity.
Defined.

(** From a best reading on, two parameter codes append two rows. *)
Lemma param_loop_row_per_code_witness :
  exists cl' results',
    for_each (param_body Ex.remote (Ex.granule Ex.noon) Ex.noon_ns) ["00090"; "00065"]
             ((Some (Ex.matched "2023-08-01T11:40:00.000Z"), Timedelta_minutes 20), [])
    = Return (cl', results')
    /\ List.length results'
       = (List.length (@nil Match.t) + List.length ["00090"; "00065"])%nat.
Proof.
  apply (param_loop_row_per_code (H := Ref.pandas) Ex.remote (Ex.granule Ex.noon)
           Ex.noon_ns ["00090"; "00065"]
           [[]; [Ex.reading "2023-08-01T12:05:00.000Z";
                 Ex.reading "2023-08-01T11:55:00.000Z"]]).
  - constructor; [vm_compute; reflexivity|].
    constructor; [vm_compute; reflexivity|]. constructor.
  - repeat (constructor; [eexists; vm_compute; reflexivity|]). constructor.
Defined.

(** The body of region LA: one comment line, the header, the units row
    and three sites. *)
Lemma get_param_sites_reads_table_witness :
  exists df,
    get_param_sites Ex.remote "00060" "LA" "2023-01-01" "2023-12-31"
    = ([Get (site_url "00060" "LA" "2023-01-01" "2023-12-31");
        Print (Str.of_nat (len df) ++ " sites found for param codes")%string],
       getitem_columns df site_columns).
Proof.
  eexists.
  eapply (get_param_sites_reads_table (H := Ref.pandas) Ex.remote
            "00060" "LA" "2023-01-01" "2023-12-31"
            ["# US Geological Survey"]
            ["agency_cd"; "site_no"; "station_nm"; "site_tp_cd"; "dec_lat_va"; "dec_long_va"]
            ["5s"; "15s"; "50s"; "7s"; "16s"; "16s"]
            [ ["USGS"; "07374000"; "Mississippi River at Baton Rouge, LA"; "ST";
               "30.44566667"; "-91.1916111"];
              ["USGS"; "07374525"; "Mississippi River at Belle Chasse, LA"; "ST";
               "29.85715084"; "-89.9778498"];
              ["USGS"; "07381600"; "Lower Atchafalaya River at Morgan City, LA"; "ST";
               "29.6926667"; "-91.2118889"] ]).
  - vm_compute. reflexivity.
  - vm_compute. reflexivity.
  - repeat constructor.
  - repeat (constructor; [split; [repeat constructor | vm_compute; reflexivity]|]).
    constructor.
  - vm_compute. reflexivity.
  - reflexivity.
Defined.

(** Regions LA and MS. *)
Lemma get_param_sites_batch_requests_witness :
  gets [Get (retrieval_utils_appeearsTest.site_url "00060" "LA");
        Get (retrieval_utils_appeearsTest.site_url "00060" "MS");
        Print "3"]
  = map (retrieval_utils_appeearsTest.site_url "00060") ["LA"; "MS"]
  /\ exists line,
       printed [Get (retrieval_utils_appeearsTest.site_url "00060" "LA");
                Get (retrieval_utils_appeearsTest.site_url "00060" "MS");
                Print "3"]
       = [line].
Proof.
  apply (get_param_sites_batch_requests (H := Ref.pandas) Ex.remote "00060"
           ["LA"; "MS"] ["ST"] _ Ex.la_sites).
  vm_compute. reflexivity.
Defined.

(** Region TX, whose table has no column [site_tp_cd], after region LA. *)
Lemma get_param_sites_batch_aborts_witness :
  retrieval_utils_appeearsTest.get_param_sites Ex.remote_odd "00060"
    (["LA"] ++ "TX" :: ["MS"]) ["ST"]
  = (map (fun sc => Get (retrieval_utils_appeearsTest.site_url "00060" sc))
         (["LA"] ++ ["TX"]),
     Raise KeyError).
Proof.
  eapply (get_param_sites_batch_aborts (H := Ref.pandas) Ex.remote_odd "00060"
            ["LA"] ["MS"] ["ST"] "TX").
  - vm_compute. reflexivity.
  - vm_compute. reflexivity.
  - vm_compute. reflexivity.
  - vm_compute. reflexivity.
  - reflexivity.
  - vm_compute. reflexivity.
Defined.

End MoreWitnesses.
